(** * Verification of the AniList recommender

    A shallow embedding of [baseline_recommender.py] and
    [utils/reranker.py], and the properties of the specification proved
    (or refuted) on it.

    Layout:
    - Part I    Python values: exceptions, the numeric tower, truthiness
    - Part II   data model: tags, media items, the two SQLite stores
    - Part III  [baseline_recommender.py]
    - Part IV   [utils/reranker.py]
    - Part IV-b [main] and notions for further properties
    - Part V    sample data used to instantiate the theorems
    - Part VI   lemmas and theorems *)

From Stdlib Require Import ZArith Floats String Ascii.
From stdpp Require Import base option list sorting gmap strings pretty.

Set Warnings "-inexact-float,-register-all".

Local Open Scope Z_scope.
Local Open Scope string_scope.
Local Open Scope list_scope.

(** * Part I. Python values *)

(** ** Exceptions

    The exceptions that the modelled code can raise.  A computation of type
    [res A] either returns a value or raises. *)

Inductive exn : Type :=
  | OverflowError      (* int too large to convert to float *)
  | JSONDecodeError    (* json.loads on text that is not JSON *)
  | ApiError.          (* raised by the Gemini client *)

Inductive res (A : Type) : Type :=
  | Ok (a : A)
  | Raise (e : exn).
Arguments Ok {A} a.
Arguments Raise {A} e.

#[global] Instance res_ret : MRet res := @Ok.
#[global] Instance res_bind : MBind res := λ A B f m,
  match m with Ok a => f a | Raise e => Raise e end.
#[global] Instance res_fmap : FMap res := λ A B f m,
  match m with Ok a => Ok (f a) | Raise e => Raise e end.

(** A [for] loop that threads an accumulator and stops at the first
    exception. *)
Fixpoint foldM {A B : Type} (f : B → A → res B) (b : B) (l : list A) : res B :=
  match l with
  | [] => Ok b
  | a :: l' => b' ← f b a; foldM f b' l'
  end.

(** A computation that can only raise [OverflowError]. *)
Definition overflow_only {A} (r : res A) : Prop :=
  ∀ e, r = Raise e → e = OverflowError.

(** ** Numbers

    A Python number is an arbitrary-precision [int] or a binary64 [float].
    [float] is Rocq's primitive binary64 type, whose operations are the
    IEEE 754 ones (round to nearest, ties to even) that CPython uses. *)

Inductive pynum : Type :=
  | PyInt (z : Z)
  | PyFloat (f : float).

(** [float(z)]: the nearest double, ties to even; CPython raises
    [OverflowError] when the rounded value does not fit. *)
Definition float_of_int (z : Z) : res float :=
  match binary_normalize prec emax z 0 false with
  | S754_infinity _ => Raise OverflowError
  | sf => Ok (SF2Prim sf)
  end.

(** The implicit conversion of an operand of a mixed [int]/[float]
    operation. *)
Definition to_float (a : pynum) : res float :=
  match a with
  | PyInt z => float_of_int z
  | PyFloat f => Ok f
  end.

(** [a + b] *)
Definition padd (a b : pynum) : res pynum :=
  match a, b with
  | PyInt x, PyInt y => Ok (PyInt (x + y))
  | _, _ => x ← to_float a; y ← to_float b; Ok (PyFloat (x + y)%float)
  end.

(** [a + f], [a * f] and [a / f] where the right operand is a [float]: the
    result is a [float] whatever [a] is.  In the modelled code the divisor
    [f] is always a non-zero literal, so [ZeroDivisionError] cannot arise. *)
Definition fadd (a : pynum) (f : float) : res float :=
  x ← to_float a; Ok (x + f)%float.
Definition fmul (a : pynum) (f : float) : res float :=
  x ← to_float a; Ok (x * f)%float.
Definition fdiv (a : pynum) (f : float) : res float :=
  x ← to_float a; Ok (x / f)%float.

(** Truth value of a number: non-zero ([nan] is true, [-0.0] is false). *)
Definition num_truthy (a : pynum) : bool :=
  match a with
  | PyInt z => negb (z =? 0)%Z
  | PyFloat f => negb (f =? 0)%float
  end.

(** [x or 0] where [x] is [None] (or a missing key read with [.get]) or a
    number. *)
Definition or_zero (x : option pynum) : pynum :=
  match x with
  | Some a => if num_truthy a then a else PyInt 0
  | None => PyInt 0
  end.

(** Truth value of an optional string: [None] and [''] are false.
    [truthy_str x] is the string when [x] is true. *)
Definition truthy_str (x : option string) : option string :=
  match x with
  | Some s => if bool_decide (s = "") then None else Some s
  | None => None
  end.

(** [l[:n]] for an [int] [n]: a negative [n] counts from the end. *)
Definition slice_to {A : Type} (n : Z) (l : list A) : list A :=
  if (0 <=? n)%Z then take (Z.to_nat n) l
  else take (length l - Z.to_nat (- n))%nat l.

(** ** The order on floats

    [sf_key] maps a float that is not [nan] to a triple whose lexicographic
    order is the order of [<]: the two zeros share a key. *)
Definition sf_key (x : spec_float) : Z * Z * Z :=
  match x with
  | S754_nan => (0, 0, 0)
  | S754_zero _ => (0, 0, 0)
  | S754_infinity s => (if s then -2 else 2, 0, 0)
  | S754_finite s m e => if s then (-1, - e, Z.neg m) else (1, e, Z.pos m)
  end.

Definition sf_is_nan (x : spec_float) : bool :=
  match x with S754_nan => true | _ => false end.

Definition key_compare (k1 k2 : Z * Z * Z) : comparison :=
  match (k1.1.1 ?= k2.1.1)%Z with
  | Eq => match (k1.1.2 ?= k2.1.2)%Z with Eq => (k1.2 ?= k2.2)%Z | c => c end
  | c => c
  end.

Definition key_lt (k1 k2 : Z * Z * Z) : Prop :=
  k1.1.1 < k2.1.1 ∨ (k1.1.1 = k2.1.1 ∧
    (k1.1.2 < k2.1.2 ∨ (k1.1.2 = k2.1.2 ∧ k1.2 < k2.2))).

Definition fkey (f : float) : Z * Z * Z := sf_key (Prim2SF f).

(** * Part II. Data model *)

(** ** Tags and media items

    A tag of a media item is either a bare string or a dictionary whose
    ["name"] and ["rank"] keys may each be absent. *)

Inductive tag : Type :=
  | TagStr (s : string)
  | TagDict (name : option string) (rank : option pynum).

(** [tag.get("name", "") if isinstance(tag, dict) else tag] *)
Definition tag_name (t : tag) : string :=
  match t with
  | TagStr s => s
  | TagDict name _ => default "" name
  end.

(** [tag.get("rank", 1) if isinstance(tag, dict) else 1] *)
Definition tag_rank (t : tag) : pynum :=
  match t with
  | TagStr _ => PyInt 1
  | TagDict _ rank => default (PyInt 1) rank
  end.

(** A media dictionary.  [average_score] and [popularity] are [None] when
    the key is missing or holds [None]: the code reads both with [.get]. *)
Record media : Type := Media {
  media_id : Z;
  title_romaji : option string;
  title_english : option string;
  title_native : option string;
  genres : list string;
  tags : list tag;
  average_score : option pynum;
  popularity : option pynum;
}.

(** The preference dictionary: term (genre or tag name) to weight. *)
Abbreviation profile := (gmap string pynum).

(** A recommendation: [(media, sim)]. *)
Abbreviation candidate := (media * float)%type.

(** ** The stores

    The personal database holds the tables [media] and
    [media_list_entries]; the global database holds [global_media].  A
    table is the list of its rows in the order in which SQLite enumerates
    them; a nullable column is an [option]. *)

Record media_row : Type := MediaRow {
  m_id : Z;
  m_genres : option string;
  m_tags : option string;
}.

Record list_entry : Type := ListEntry {
  mle_media_id : Z;
  mle_status : option string;
  mle_score : option pynum;
}.

Record personal_db : Type := PersonalDb {
  media_table : list media_row;
  media_list_entries : list list_entry;
}.

Record global_row : Type := GlobalRow {
  g_id : Z;
  g_title_romaji : option string;
  g_title_english : option string;
  g_title_native : option string;
  g_genres : option string;
  g_tags : option string;
}.

Abbreviation global_db := (list global_row).

Record stores : Type := Stores {
  personal : personal_db;
  global : global_db;
}.

(** ** Library functions

    The functions of the Python library that the recommender calls on
    strings.  [json.loads] is read at the type of the column it decodes
    (the ingestion job stores [json.dumps] of a list of genre names and of
    a list of tags); it is [None] when [json.loads] raises.  A text that
    is JSON of another shape is outside the data model. *)

Class PyLib : Type := {
  str_lower : string → string;
  loads_genres : string → option (list string);
  loads_tags : string → option (list tag);
}.

(** * Part III. baseline_recommender.py *)

Section recommender.
Context `{PyLib}.

(** The SQL conditions [status = st] and [status != st]: neither holds
    of a row whose status is NULL. *)
Definition status_eq (st : string) (e : list_entry) : bool :=
  match mle_status e with
  | Some s => bool_decide (s = st)
  | None => false
  end.
Definition status_ne (st : string) (e : list_entry) : bool :=
  match mle_status e with
  | Some s => bool_decide (s ≠ st)
  | None => false
  end.

(** ** get_user_preferences *)

(** The rows of
    [SELECT m.genres, m.tags, mle.score FROM media m
     JOIN media_list_entries mle ON m.id = mle.media_id
     WHERE mle.status = 'COMPLETED' AND mle.score IS NOT NULL].
    The query has no ORDER BY: the rows are taken entry by entry, each
    entry with the media rows of its id. *)
Definition completed_rows (db : personal_db)
    : list (option string * option string * pynum) :=
  e ← media_list_entries db;
  match mle_score e with
  | Some score =>
      if status_eq "COMPLETED" e then
        m ← media_table db;
        if bool_decide (m_id m = mle_media_id e)
        then [(m_genres m, m_tags m, score)] else []
      else []
  | None => []
  end.

(** [try: genres = json.loads(genres_json) if genres_json else []
     except Exception: genres = []] *)
Definition genres_or_empty (genres_json : option string) : list string :=
  match truthy_str genres_json with
  | Some s => default [] (loads_genres s)
  | None => []
  end.

Definition tags_or_empty (tags_json : option string) : list tag :=
  match truthy_str tags_json with
  | Some s => default [] (loads_tags s)
  | None => []
  end.

(** [preference[k] = preference.get(k, 0) + score] *)
Definition bump (score : pynum) (preference : profile) (k : string)
    : res profile :=
  w ← padd (default (PyInt 0) (preference !! k)) score;
  Ok (<[k := w]> preference).

(** The body of the loop over the rows. *)
Definition preference_step (preference : profile)
    (row : option string * option string * pynum) : res profile :=
  let '(genres_json, tags_json, score) := row in
  let genres := genres_or_empty genres_json in
  let tags := tags_or_empty tags_json in
  preference ← foldM (bump score) preference genres;
  foldM (bump score) preference (tag_name <$> tags).

Definition get_user_preferences (db : personal_db) : res profile :=
  foldM preference_step ∅ (completed_rows db).

(** ** get_global_media *)

(** [json.loads(text) if text else []], outside any [try]: the exception
    of [json.loads] reaches the caller. *)
Definition loads_or_raise {A : Type} (loads : string → option (list A))
    (text : option string) : res (list A) :=
  match truthy_str text with
  | Some s =>
      match loads s with
      | Some l => Ok l
      | None => Raise JSONDecodeError
      end
  | None => Ok []
  end.

(** The dictionary built from one row of
    [SELECT id, title_romaji, title_english, title_native, genres, tags
     FROM global_media]; it has no other key. *)
Definition media_of_row (row : global_row) : res media :=
  genres ← loads_or_raise loads_genres (g_genres row);
  tags ← loads_or_raise loads_tags (g_tags row);
  Ok {| media_id := g_id row;
        title_romaji := g_title_romaji row;
        title_english := g_title_english row;
        title_native := g_title_native row;
        genres := genres;
        tags := tags;
        average_score := None;
        popularity := None |}.

Definition get_global_media (db : global_db) : res (list media) :=
  foldM (λ media_list row, m ← media_of_row row; Ok (media_list ++ [m]))
        [] db.

(** ** get_user_planned_media_ids, get_user_watched_media_ids *)

(** [SELECT DISTINCT media_id FROM media_list_entries
     WHERE status = 'PLANNING'] *)
Definition get_user_planned_media_ids (db : personal_db) : gset Z :=
  list_to_set
    (mle_media_id <$> filter (status_eq "PLANNING") (media_list_entries db)).

(** [... WHERE status != 'PLANNING'] *)
Definition get_user_watched_media_ids (db : personal_db) : gset Z :=
  list_to_set
    (mle_media_id <$> filter (status_ne "PLANNING") (media_list_entries db)).

(** ** compute_similarity *)

(** [if genre in preference: score += preference[genre]] *)
Definition add_genre (preference : profile) (score : pynum) (genre : string)
    : res pynum :=
  match preference !! genre with
  | Some w => padd score w
  | None => Ok score
  end.

(** [if tag_name in preference:
       score += preference[tag_name] * (tag_rank / 100.0)] *)
Definition add_tag (preference : profile) (score : pynum) (t : tag)
    : res pynum :=
  match preference !! tag_name t with
  | Some w =>
      r ← fdiv (tag_rank t) 100.0;
      x ← fmul w r;
      score ← fadd score x;
      Ok (PyFloat score)
  | None => Ok score
  end.

Definition compute_similarity (m : media) (preference : profile)
    : res float :=
  let score := PyInt 0 in
  score ← foldM (add_genre preference) score (genres m);
  score ← foldM (add_tag preference) score (tags m);
  let average_score := or_zero (average_score m) in
  x ← fmul average_score 0.1;
  score ← fadd score x;
  let popularity := or_zero (popularity m) in
  y ← fdiv popularity 1000000.0;
  Ok (score + y)%float.

(** ** recommend_top_media *)

Definition genres_lower (m : media) : list string :=
  str_lower <$> genres m.
Definition tags_lower (m : media) : list string :=
  (λ t, str_lower (tag_name t)) <$> tags m.

(** The boost for a desired genre that was found. *)
Definition genre_boost (desired_genre : option string) (m : media)
    (sim : float) : float :=
  match truthy_str desired_genre with
  | Some dg =>
      if bool_decide (str_lower dg ∈ genres_lower m) then (sim * 1.2)%float
      else if bool_decide (str_lower dg ∈ tags_lower m) then (sim * 1.1)%float
      else sim
  | None => sim
  end.

(** The boost for a planned show. *)
Definition planned_boost (planned_ids : gset Z) (m : media) (sim : float)
    : float :=
  if bool_decide (media_id m ∈ planned_ids) then (sim * 1.5)%float else sim.

(** The filter on the desired genre: [true] when the item is skipped. *)
Definition genre_filtered_out (desired_genre : option string) (m : media)
    : bool :=
  match truthy_str desired_genre with
  | Some dg =>
      bool_decide (str_lower dg ∉ genres_lower m)
      && bool_decide (str_lower dg ∉ tags_lower m)
  | None => false
  end.

(** The body of the loop over [global_media]. *)
Definition recommend_step (preference : profile)
    (planned_ids watched_ids : gset Z) (desired_genre : option string)
    (recommendations : list candidate) (m : media) : res (list candidate) :=
  if bool_decide (media_id m ∈ watched_ids) then Ok recommendations
  else if genre_filtered_out desired_genre m then Ok recommendations
  else
    sim ← compute_similarity m preference;
    let sim := genre_boost desired_genre m sim in
    let sim := planned_boost planned_ids m sim in
    Ok (recommendations ++ [(m, sim)]).

(** [recommendations.sort(key=lambda x: x[1], reverse=True)].

    [list.sort] is stable and compares keys with [<].  Insertion from the
    right keeps an element in front of those that follow it in the input
    unless one of them has a strictly greater key.  When no key is [nan]
    the order [<] is a strict weak order, and every stable sort returns
    this list (lemma [stable_sort_unique]). *)
Fixpoint insert_desc (x : candidate) (l : list candidate) : list candidate :=
  match l with
  | [] => [x]
  | y :: l' =>
      if (x.2 <? y.2)%float then y :: insert_desc x l' else x :: l
  end.

Definition sort_desc (l : list candidate) : list candidate :=
  foldr insert_desc [] l.

(** [a] may stand before [b] in a list in descending order of score. *)
Definition score_ge (a b : candidate) : Prop := (b.2 <=? a.2)%float = true.

(** The candidates whose score compares equal to [v]. *)
Definition has_score (v : float) (c : candidate) : bool := (c.2 =? v)%float.

(** The score of the candidate is a number. *)
Definition not_nan (c : candidate) : Prop := is_nan c.2 = false.

(** The list [recommendations] when the loop ends. *)
Definition scored_candidates (s : stores) (desired_genre : option string)
    : res (list candidate) :=
  preference ← get_user_preferences (personal s);
  global_media ← get_global_media (global s);
  let planned_ids := get_user_planned_media_ids (personal s) in
  let watched_ids := get_user_watched_media_ids (personal s) in
  foldM (recommend_step preference planned_ids watched_ids desired_genre)
        [] global_media.

Definition recommend_top_media (s : stores) (top_n : Z)
    (desired_genre : option string) : res (list candidate) :=
  recommendations ← scored_candidates s desired_genre;
  let recommendations := sort_desc recommendations in
  Ok (slice_to top_n recommendations).

(** ** The scoring formula of the specification

    The contributions to the similarity score, as the specification
    lists them, and their sum from [0]. *)

Definition psum (start : pynum) (l : list pynum) : res pynum :=
  foldM padd start l.

(** 1. the profile's weight for each genre that is a key of the profile *)
Definition genre_terms (preference : profile) (gs : list string)
    : list pynum :=
  omap (λ g, preference !! g) gs.

(** 2. [profile[name] * (rank / 100.0)] for each tag whose name is a key
    of the profile *)
Fixpoint tag_terms (preference : profile) (ts : list tag)
    : res (list pynum) :=
  match ts with
  | [] => Ok []
  | t :: ts' =>
      match preference !! tag_name t with
      | Some w =>
          r ← fdiv (tag_rank t) 100.0;
          x ← fmul w r;
          l ← tag_terms preference ts';
          Ok (PyFloat x :: l)
      | None => tag_terms preference ts'
      end
  end.

(** 3. [average_score * 0.1], a missing average_score being 0 *)
Definition quality_term (m : media) : res pynum :=
  x ← fmul (or_zero (average_score m)) 0.1; Ok (PyFloat x).

(** 4. [popularity / 1,000,000.0], a missing popularity being 0 *)
Definition popularity_term (m : media) : res pynum :=
  y ← fdiv (or_zero (popularity m)) 1000000.0; Ok (PyFloat y).

Definition spec_similarity (m : media) (preference : profile) : res pynum :=
  ts ← tag_terms preference (tags m);
  a ← quality_term m;
  b ← popularity_term m;
  psum (PyInt 0) (genre_terms preference (genres m) ++ ts ++ [a; b]).

(** ** Reading the loop of recommend_top_media candidate by candidate *)

(** The item passes both filters. *)
Definition survives (watched_ids : gset Z) (desired_genre : option string)
    (m : media) : bool :=
  negb (bool_decide (media_id m ∈ watched_ids))
  && negb (genre_filtered_out desired_genre m).

(** The pair appended for an item that passes the filters. *)
Definition scored (preference : profile) (planned_ids : gset Z)
    (desired_genre : option string) (m : media) : res candidate :=
  sim ← compute_similarity m preference;
  Ok (m, planned_boost planned_ids m (genre_boost desired_genre m sim)).

(** ** The profile of the specification: the weight of one term *)

(** The terms of a row: its genres, then the names of its tags. *)
Definition row_terms (row : option string * option string * pynum)
    : list string :=
  genres_or_empty row.1.1 ++ (tag_name <$> tags_or_empty row.1.2).

(** [score] is added once for each occurrence of [term]; the weight is
    created at 0 by the first addition. *)
Definition add_occurrences (term : string) (score : pynum)
    (weight : option pynum) (terms : list string) : res (option pynum) :=
  foldM (λ weight k,
           if bool_decide (k = term)
           then w ← padd (default (PyInt 0) weight) score; Ok (Some w)
           else Ok weight)
        weight terms.

(** The sum of the scores of the rows that carry [term], in the order of
    the rows; [None] when no row carries it. *)
Definition term_weight (term : string)
    (rows : list (option string * option string * pynum))
    : res (option pynum) :=
  foldM (λ weight row, add_occurrences term row.2 weight (row_terms row))
        None rows.

(** The genre-match sum plus the damped tag-match sum. *)
Definition genre_tag_sum (m : media) (preference : profile) : res pynum :=
  ts ← tag_terms preference (tags m);
  psum (PyInt 0) (genre_terms preference (genres m) ++ ts).

(** A row of the catalog whose genres or tags text [json.loads]
    rejects. *)
Definition malformed (row : global_row) : Prop :=
  (∃ s, truthy_str (g_genres row) = Some s ∧ loads_genres s = None)
  ∨ (∃ s, truthy_str (g_tags row) = Some s ∧ loads_tags s = None).

End recommender.

(** * Part IV. utils/reranker.py *)

(** A decoded JSON document.  The keys of an object are distinct. *)
Inductive json : Type :=
  | JNull
  | JBool (b : bool)
  | JNum (n : pynum)
  | JStr (s : string)
  | JArr (l : list json)
  | JObj (kvs : list (string * json)).

(** The library functions that the re-ranker calls on strings:
    [json.loads] ([None] when it raises), [int] on a [str] ([None] when it
    raises) and the iteration over the characters of a [str]. *)
Class ReplyLib : Type := {
  loads : string → option json;
  int_of_str : string → option Z;
  str_iter : string → list string;
}.

(** A candidate dictionary as the re-ranker reads it. *)
Record summary : Type := Summary {
  c_id : Z;
  c_title : string;
  c_format : string;
  c_average_score : option Z;
  c_popularity : option Z;
}.

(** [str(x)] for an [int] or [None]. *)
Definition str_of_opt (x : option Z) : string :=
  match x with
  | Some z => pretty z
  | None => "None"
  end.

(** [int(f)] for a [float]: truncation towards zero; [None] when it
    raises ([nan] and the infinities). *)
Definition int_of_float (f : float) : option Z :=
  match Prim2SF f with
  | S754_zero _ => Some 0
  | S754_finite s m e =>
      let v := if (0 <=? e)%Z then Z.shiftl (Z.pos m) e
               else Z.shiftr (Z.pos m) (- e) in
      Some (if s then - v else v)
  | S754_infinity _ | S754_nan => None
  end.

Section reranker.
Context `{ReplyLib}.

(** [int(cid)]; [None] when it raises. *)
Definition py_int (cid : json) : option Z :=
  match cid with
  | JNum (PyInt z) => Some z
  | JNum (PyFloat f) => int_of_float f
  | JBool b => Some (if b then 1 else 0)
  | JStr s => int_of_str s
  | JNull | JArr _ | JObj _ => None
  end.

(** The values that [for cid in v] yields; [None] when [v] is not
    iterable. *)
Definition py_iter (v : json) : option (list json) :=
  match v with
  | JArr l => Some l
  | JStr s => Some (JStr <$> str_iter s)
  | JObj kvs => Some (JStr <$> kvs.*1)
  | JNull | JBool _ | JNum _ => None
  end.

(** [parsed.get(key, dflt)]; [None] when [parsed] has no method [get]. *)
Definition py_get (parsed : json) (key : string) (dflt : json)
    : option json :=
  match parsed with
  | JObj kvs => Some (default dflt (list_to_map (M := gmap string json) kvs !! key))
  | _ => None
  end.

(** The body of the [try] block; [None] when an exception is caught. *)
Definition parse_candidate_ids (text : string) : option (list Z) :=
  parsed ← loads text;
  candidate_ids ← py_get parsed "candidate_ids" (JArr []);
  cids ← py_iter candidate_ids;
  mapM py_int cids.

Definition newline : string := String "010" "".

Definition candidate_line (c : summary) : string :=
  "ID: " +:+ pretty (c_id c) +:+ ", Title: " +:+ c_title c
  +:+ ", Format: " +:+ c_format c +:+ ", "
  +:+ "Score: " +:+ str_of_opt (c_average_score c)
  +:+ ", Popularity: " +:+ str_of_opt (c_popularity c).

Definition build_prompt (query : string) (candidates : list summary)
    : string :=
  let candidate_lines := candidate_line <$> candidates in
  let candidates_text := String.concat newline candidate_lines in
  "You are an expert anime recommender. Given the following candidate anime details and the user query, "
  +:+ "please re-rank the candidates so that high-quality TV series (with high average scores and popularity) "
  +:+ "are prioritized, while penalizing formats like TV_SHORT, OVA, ONA, or SPECIAL."
  +:+ newline +:+ newline
  +:+ "User Query: " +:+ query +:+ newline +:+ newline
  +:+ "Candidates:" +:+ newline
  +:+ candidates_text +:+ newline +:+ newline
  +:+ "Return your answer as valid JSON with a single key 'candidate_ids' mapping to an array of anime IDs in the desired order.".

(** [generate prompt] stands for [model.generate_content(contents=prompt)]
    followed by the first read of [response.text]: both are outside the
    [try] block, so what they raise reaches the caller. *)
Definition rerank_candidates_with_gemini
    (generate : string → res string)
    (query : string) (candidates : list summary) : res (list Z) :=
  let prompt := build_prompt query candidates in
  text ← generate prompt;
  match parse_candidate_ids text with
  | Some ids => Ok ids
  | None => Ok (c_id <$> candidates)
  end.

(** The ways in which the [try] block fails on a reply that was
    obtained: the text is not JSON; the document is not an object; the
    value under ['candidate_ids'] is not iterable; [int] rejects one of
    its entries. *)
Inductive parse_failure (text : string) : Prop :=
  | not_json :
      loads text = None → parse_failure text
  | not_an_object parsed :
      loads text = Some parsed → py_get parsed "candidate_ids" (JArr []) = None →
      parse_failure text
  | not_iterable parsed candidate_ids :
      loads text = Some parsed →
      py_get parsed "candidate_ids" (JArr []) = Some candidate_ids →
      py_iter candidate_ids = None →
      parse_failure text
  | not_an_int parsed candidate_ids cids cid :
      loads text = Some parsed →
      py_get parsed "candidate_ids" (JArr []) = Some candidate_ids →
      py_iter candidate_ids = Some cids →
      cid ∈ cids → py_int cid = None →
      parse_failure text.
End reranker.

(** * Part IV-b. The rest of baseline_recommender.py *)

(** ** main

    [str.strip] and the format specification [.2f] belong to the Python
    library. *)
Class ConsoleLib : Type := {
  str_strip : string → string;
  format_2f : float → string;
}.

(** [media.get("title_english") or media.get("title_romaji")
     or media.get("title_native")]: the first operand that is true, and the
    last one when none is. *)
Definition display_title (m : media) : option string :=
  match truthy_str (title_english m) with
  | Some t => Some t
  | None =>
      match truthy_str (title_romaji m) with
      | Some t => Some t
      | None => title_native m
      end
  end.

(** [str(x)] for a [str] or [None], as an f-string renders it. *)
Definition str_of_title (x : option string) : string :=
  match x with
  | Some t => t
  | None => "None"
  end.

Section main.
Context `{PyLib} `{ConsoleLib}.

(** [f"{title} (Similarity Score: {score:.2f})"] *)
Definition recommendation_line (c : candidate) : string :=
  str_of_title (display_title c.1)
  +:+ " (Similarity Score: " +:+ format_2f c.2 +:+ ")".

(** [main]: [line] is what [input] returned; the result is the list of the
    lines printed after it.  Nothing is printed when the engine raises:
    the first [print] follows the call. *)
Definition main (line : string) (s : stores) : res (list string) :=
  let desired_genre := str_strip line in
  let desired_genre :=
    if bool_decide (desired_genre = "") then None else Some desired_genre in
  recommendations ← recommend_top_media s 10 desired_genre;
  Ok ("Top Recommendations:" :: (recommendation_line <$> recommendations)).

(** The desired genre that [main] passes on for the line typed. *)
Definition typed_genre (line : string) : option string :=
  if bool_decide (str_strip line = "") then None else Some (str_strip line).
End main.

(** ** Notions used to state further properties *)

Section recommender_more.
Context `{PyLib}.

(** The entry passes the WHERE clause of get_user_preferences. *)
Definition qualifies (e : list_entry) : bool :=
  status_eq "COMPLETED" e && bool_decide (is_Some (mle_score e)).

(** The database with another list of entries. *)
Definition with_entries (db : personal_db) (es : list list_entry)
    : personal_db :=
  {| media_table := media_table db; media_list_entries := es |}.

(** The media item with other genres and tags. *)
Definition with_terms (m : media) (gs : list string) (ts : list tag) : media :=
  {| media_id := media_id m;
     title_romaji := title_romaji m;
     title_english := title_english m;
     title_native := title_native m;
     genres := gs;
     tags := ts;
     average_score := average_score m;
     popularity := popularity m |}.

(** The number of times that a row carries a term. *)
Definition occurrences (term : string)
    (row : option string * option string * pynum) : nat :=
  length (filter (λ k, k = term) (row_terms row)).

Definition is_int (a : pynum) : Prop := ∃ z, a = PyInt z.

(** The value of an [int]. *)
Definition int_value (a : pynum) : Z :=
  match a with
  | PyInt z => z
  | PyFloat _ => 0
  end.

(** The sum over the rows of score times occurrences. *)
Definition int_total (term : string)
    (rows : list (option string * option string * pynum)) : Z :=
  foldr (λ row acc, int_value row.2 * Z.of_nat (occurrences term row) + acc)
        0 rows.

(** The media item that the catalog reader builds from a row that
    [json.loads] accepts. *)
Definition decoded_media (row : global_row) : media :=
  {| media_id := g_id row;
     title_romaji := g_title_romaji row;
     title_english := g_title_english row;
     title_native := g_title_native row;
     genres := genres_or_empty (g_genres row);
     tags := tags_or_empty (g_tags row);
     average_score := None;
     popularity := None |}.

(** The desired genre as the engine reads it: none when it is [None] or
    empty, lower-cased otherwise. *)
Definition genre_key (desired_genre : option string) : option string :=
  str_lower <$> truthy_str desired_genre.
End recommender_more.

(** * Part V. Sample data *)

(** A table of the library functions on the texts that the examples
    use: on each of them it returns what Python returns.  It serves to
    evaluate the model on concrete data; the theorems hold for every
    library. *)

Definition ascii_lower (c : ascii) : ascii :=
  let n := nat_of_ascii c in
  if (65 <=? n)%nat && (n <=? 90)%nat then ascii_of_nat (n + 32) else c.

Fixpoint lower_ascii (s : string) : string :=
  match s with
  | EmptyString => EmptyString
  | String c s' => String (ascii_lower c) (lower_ascii s')
  end.

(** The double quote. *)
Definition dq : string := String "034" "".
Definition quoted (s : string) : string := dq +:+ s +:+ dq.

Definition text_action : string := "[" +:+ quoted "Action" +:+ "]".
Definition text_comedy : string := "[" +:+ quoted "Comedy" +:+ "]".
Definition text_action_comedy : string :=
  "[" +:+ quoted "Action" +:+ ", " +:+ quoted "Comedy" +:+ "]".
Definition text_tag_comedy : string := "[" +:+ quoted "comedy" +:+ "]".
Definition text_tag_tragedy : string :=
  "[{" +:+ quoted "name" +:+ ": " +:+ quoted "Tragedy" +:+ ", "
  +:+ quoted "rank" +:+ ": 50}]".
Definition text_tag_tragedy_100 : string :=
  "[{" +:+ quoted "name" +:+ ": " +:+ quoted "Tragedy" +:+ ", "
  +:+ quoted "rank" +:+ ": 100}]".
Definition text_tag_action_0 : string :=
  "[{" +:+ quoted "name" +:+ ": " +:+ quoted "Action" +:+ ", "
  +:+ quoted "rank" +:+ ": 0}]".
Definition text_malformed : string := "[Action".

Definition sample_loads_genres (s : string) : option (list string) :=
  if bool_decide (s = "[]") then Some []
  else if bool_decide (s = text_action) then Some ["Action"]
  else if bool_decide (s = text_comedy) then Some ["Comedy"]
  else if bool_decide (s = text_action_comedy) then Some ["Action"; "Comedy"]
  else None.

Definition sample_loads_tags (s : string) : option (list tag) :=
  if bool_decide (s = "[]") then Some []
  else if bool_decide (s = text_tag_comedy) then Some [TagStr "comedy"]
  else if bool_decide (s = text_tag_tragedy)
    then Some [TagDict (Some "Tragedy") (Some (PyInt 50))]
  else if bool_decide (s = text_tag_tragedy_100)
    then Some [TagDict (Some "Tragedy") (Some (PyInt 100))]
  else if bool_decide (s = text_tag_action_0)
    then Some [TagDict (Some "Action") (Some (PyInt 0))]
  else None.

Definition sample_lib : PyLib :=
  {| str_lower := lower_ascii;
     loads_genres := sample_loads_genres;
     loads_tags := sample_loads_tags |}.

(** A history: two completed and rated shows that share the genre Action
    (scores 7 and 9), the second with a malformed tags text; a planned
    show, a show being watched, and a completed show without a score. *)
Definition sample_personal : personal_db :=
  {| media_table :=
       [ MediaRow 1 (Some text_action) (Some text_tag_tragedy);
         MediaRow 2 (Some text_action) (Some text_malformed);
         MediaRow 5 (Some text_comedy) None ];
     media_list_entries :=
       [ ListEntry 1 (Some "COMPLETED") (Some (PyInt 7));
         ListEntry 2 (Some "COMPLETED") (Some (PyInt 9));
         ListEntry 3 (Some "PLANNING") None;
         ListEntry 4 (Some "CURRENT") None;
         ListEntry 5 (Some "COMPLETED") None ] |}.

Definition sample_profile : profile :=
  <["Tragedy" := PyInt 7]> (<["Action" := PyInt 16]> ∅).

(** A catalog: the planned show 3, the show 4 being watched, and three
    shows that are not in the history. *)
Definition sample_global : global_db :=
  [ GlobalRow 3 (Some "Planned") None None
      (Some text_comedy) (Some text_tag_tragedy);
    GlobalRow 4 (Some "Watching") None None (Some text_action) None;
    GlobalRow 10 (Some "Tenth") None None
      (Some text_action) (Some text_tag_comedy);
    GlobalRow 11 (Some "Eleventh") None None
      (Some text_action_comedy) (Some "");
    GlobalRow 12 (Some "Twelfth") None None (Some text_action) (Some "[]") ].

Definition sample_stores : stores :=
  {| personal := sample_personal; global := sample_global |}.

(** The same catalog with one row whose genres text is malformed. *)
Definition bad_row : global_row :=
  GlobalRow 13 (Some "Thirteenth") None None (Some text_malformed) None.

(** The media items that the catalog reader builds from [sample_global]. *)
Definition m3 : media :=
  Media 3 (Some "Planned") None None ["Comedy"]
    [TagDict (Some "Tragedy") (Some (PyInt 50))] None None.
Definition m4 : media :=
  Media 4 (Some "Watching") None None ["Action"] [] None None.
Definition m10 : media :=
  Media 10 (Some "Tenth") None None ["Action"] [TagStr "comedy"] None None.
Definition m11 : media :=
  Media 11 (Some "Eleventh") None None ["Action"; "Comedy"] [] None None.
Definition m12 : media :=
  Media 12 (Some "Twelfth") None None ["Action"] [] None None.

Definition sample_catalog : list media := [m3; m4; m10; m11; m12].

(** The candidates without a desired genre, in catalog order, and the
    recommendations: item 4 is being watched, item 3 is planned. *)
Definition pool_any : list candidate :=
  [ (m3, 3.5 * 1.5); (m10, 16); (m11, 16); (m12, 16) ]%float.
Definition top_any : list candidate :=
  [ (m10, 16); (m11, 16); (m12, 16); (m3, 3.5 * 1.5) ]%float.

(** The candidates for the desired genre COMEDY: a genre of items 3 and 11,
    a tag of item 10. *)
Definition pool_comedy : list candidate :=
  [ (m3, 3.5 * 1.2 * 1.5); (m10, 16 * 1.1); (m11, 16 * 1.2) ]%float.

(** A history whose two ratings of Action add up to [inf], and a catalog
    whose second item carries the tag Action with rank 0: its similarity
    is [inf * 0.0], that is [nan]. *)
Definition nan_personal : personal_db :=
  {| media_table :=
       [ MediaRow 1 (Some text_action) None;
         MediaRow 2 (Some text_action) None;
         MediaRow 6 None (Some text_tag_tragedy) ];
     media_list_entries :=
       [ ListEntry 1 (Some "COMPLETED") (Some (PyFloat 1e308));
         ListEntry 2 (Some "COMPLETED") (Some (PyFloat 1e308));
         ListEntry 6 (Some "COMPLETED") (Some (PyInt 7)) ] |}.

Definition nan_global : global_db :=
  [ GlobalRow 21 (Some "Low") None None None (Some text_tag_tragedy);
    GlobalRow 22 (Some "Nan") None None None (Some text_tag_action_0);
    GlobalRow 23 (Some "High") None None None (Some text_tag_tragedy_100) ].

Definition nan_stores : stores :=
  {| personal := nan_personal; global := nan_global |}.

Definition n21 : media :=
  Media 21 (Some "Low") None None []
    [TagDict (Some "Tragedy") (Some (PyInt 50))] None None.
Definition n22 : media :=
  Media 22 (Some "Nan") None None []
    [TagDict (Some "Action") (Some (PyInt 0))] None None.
Definition n23 : media :=
  Media 23 (Some "High") None None []
    [TagDict (Some "Tragedy") (Some (PyInt 100))] None None.

Definition nan_pool : list candidate :=
  [ (n21, 3.5); (n22, nan); (n23, 7) ]%float.

(** A media item with quality and popularity signals. *)
Definition m_scored : media :=
  Media 20 None None None ["Action"]
    [TagDict (Some "Tragedy") (Some (PyInt 50)); TagStr "Action"]
    (Some (PyInt 80)) (Some (PyInt 250000)).

(** The re-ranker: a table of [json.loads], [int] and the iteration of a
    [str] on the replies of the examples. *)
Definition reply_ranked : string :=
  "{" +:+ quoted "candidate_ids" +:+ ": [2, 1]}".
Definition reply_no_key : string := "{}".
Definition reply_not_json : string := "Sure! Here is the ranking: 2, 1".
Definition reply_array : string := "[2, 1]".

Definition sample_loads (s : string) : option json :=
  if bool_decide (s = reply_ranked)
    then Some (JObj [("candidate_ids", JArr [JNum (PyInt 2); JNum (PyInt 1)])])
  else if bool_decide (s = reply_no_key) then Some (JObj [])
  else if bool_decide (s = reply_array)
    then Some (JArr [JNum (PyInt 2); JNum (PyInt 1)])
  else None.

Definition sample_reply_lib : ReplyLib :=
  {| loads := sample_loads;
     int_of_str := λ s, if bool_decide (s = "2") then Some 2 else None;
     str_iter := λ s, (λ c, String c "") <$> list_ascii_of_string s |}.

Definition sample_candidates : list summary :=
  [ Summary 1 "First" "TV" (Some 80) (Some 1000);
    Summary 2 "Second" "OVA" None (Some 5) ].

(** The service is down; the service answers [text]. *)
Definition api_down : string → res string := λ _, Raise ApiError.
Definition api_reply (text : string) : string → res string := λ _, Ok text.

(** A history without any completed and rated show, over the same
    catalog. *)
Definition cold_personal : personal_db :=
  {| media_table := [];
     media_list_entries :=
       [ ListEntry 3 (Some "PLANNING") None;
         ListEntry 4 (Some "CURRENT") None;
         ListEntry 12 None None ] |}.

Definition cold_stores : stores :=
  {| personal := cold_personal; global := sample_global |}.

(** The catalog with the malformed row. *)
Definition bad_stores : stores :=
  {| personal := sample_personal; global := sample_global ++ [bad_row] |}.

(** A console library for the examples: [strip] on texts whose only white
    space is the space; [.2f] on the scores of the examples. *)
Fixpoint lstrip_spaces (s : string) : string :=
  match s with
  | String " " s' => lstrip_spaces s'
  | _ => s
  end.

Definition sample_console : ConsoleLib :=
  {| str_strip := λ s,
       String.rev (lstrip_spaces (String.rev (lstrip_spaces s)));
     format_2f := λ f,
       if (f =? 16)%float then "16.00"
       else if (f =? 5.25)%float then "5.25"
       else if (f =? 0)%float then "0.00"
       else "" |}.

(** What [main] prints on [sample_stores] after the header when the line
    typed is blank. *)
Definition sample_lines : list string :=
  [ "Top Recommendations:";
    "Tenth (Similarity Score: 16.00)";
    "Eleventh (Similarity Score: 16.00)";
    "Twelfth (Similarity Score: 16.00)";
    "Planned (Similarity Score: 5.25)" ].

(** The catalog items that a history without watched shows leaves, with
    the score of a cold start. *)
Definition cold_pool : list candidate :=
  [ (m3, 0); (m10, 0); (m11, 0); (m12, 0) ]%float.

(** * Part VI. Lemmas and theorems *)

(** ** The exception monad *)

Lemma foldM_cons {A B} (f : B → A → res B) b a l :
  foldM f b (a :: l) = b' ← f b a; foldM f b' l.
Proof. reflexivity. Qed.

Lemma foldM_app {A B} (f : B → A → res B) b l1 l2 :
  foldM f b (l1 ++ l2) = b' ← foldM f b l1; foldM f b' l2.
Proof.
  revert b. induction l1 as [|a l1 IH]; intros b; simpl; [done|].
  destruct (f b a); simpl; auto.
Qed.

Lemma overflow_only_Ok {A} (a : A) : overflow_only (Ok a).
Proof. by intros e. Qed.

Lemma overflow_only_bind {A B} (m : res A) (k : A → res B) :
  overflow_only m → (∀ a, overflow_only (k a)) → overflow_only (m ≫= k).
Proof.
  intros Hm Hk e. destruct m as [a|e']; simpl.
  - apply Hk.
  - intros [= <-]. by apply Hm.
Qed.

Lemma overflow_only_foldM {A B} (f : B → A → res B) b l :
  (∀ b a, overflow_only (f b a)) → overflow_only (foldM f b l).
Proof.
  intros Hf. revert b. induction l as [|a l IH]; intros b; simpl.
  - apply overflow_only_Ok.
  - apply overflow_only_bind; auto.
Qed.

Lemma float_of_int_overflow z : overflow_only (float_of_int z).
Proof.
  intros e. unfold float_of_int.
  by destruct (binary_normalize _ _ _ _ _); intros [=].
Qed.

Lemma to_float_overflow a : overflow_only (to_float a).
Proof.
  destruct a; [apply float_of_int_overflow | apply overflow_only_Ok].
Qed.

Lemma padd_overflow a b : overflow_only (padd a b).
Proof.
  destruct a, b; simpl;
    repeat first
      [ apply overflow_only_Ok | apply float_of_int_overflow
      | apply overflow_only_bind; [|intros ?] ].
Qed.

Lemma fadd_overflow a f : overflow_only (fadd a f).
Proof.
  apply overflow_only_bind; [apply to_float_overflow|intros ?].
  apply overflow_only_Ok.
Qed.
Lemma fmul_overflow a f : overflow_only (fmul a f).
Proof.
  apply overflow_only_bind; [apply to_float_overflow|intros ?].
  apply overflow_only_Ok.
Qed.
Lemma fdiv_overflow a f : overflow_only (fdiv a f).
Proof.
  apply overflow_only_bind; [apply to_float_overflow|intros ?].
  apply overflow_only_Ok.
Qed.

Create HintDb overflow.
#[local] Hint Resolve overflow_only_Ok overflow_only_bind overflow_only_foldM
  to_float_overflow padd_overflow fadd_overflow fmul_overflow fdiv_overflow
  : overflow.

Ltac solve_overflow :=
  repeat first
    [ assumption
    | apply overflow_only_Ok
    | apply overflow_only_bind; [|intros ?]
    | solve [auto with overflow] ].

Ltac overflow_subst :=
  repeat match goal with
  | H : ?c = Raise ?e |- _ =>
      let E := fresh in
      assert (e = OverflowError) as E
        by (apply (λ Hc : overflow_only c, Hc e H); solve_overflow);
      try subst e; clear H
  end.

(** Case analysis on every step of a chain of binds. *)
Ltac bind_cases :=
  unfold mbind, res_bind, fmap, res_fmap; simpl;
  repeat match goal with
  | |- context [match ?m with Ok _ => _ | Raise _ => _ end] =>
      destruct m eqn:?; simpl
  end.

(** ** compute_similarity *)

Lemma padd_float_r a f : padd a (PyFloat f) = PyFloat <$> fadd a f.
Proof.
  destruct a as [z|g]; unfold padd, fadd; simpl; [|done].
  by destruct (float_of_int z).
Qed.

Lemma psum_overflow start l : overflow_only (psum start l).
Proof. apply overflow_only_foldM. auto with overflow. Qed.

Lemma tag_terms_overflow p ts : overflow_only (tag_terms p ts).
Proof.
  induction ts as [|t ts IH]; simpl; [auto with overflow|].
  destruct (p !! tag_name t); solve_overflow.
Qed.
#[local] Hint Resolve psum_overflow tag_terms_overflow : overflow.

Lemma genre_terms_cons (p : profile) g gs :
  genre_terms p (g :: gs) =
    match p !! g with
    | Some w => w :: genre_terms p gs
    | None => genre_terms p gs
    end.
Proof. reflexivity. Qed.

Lemma genre_loop_psum p score gs :
  foldM (add_genre p) score gs = psum score (genre_terms p gs).
Proof.
  revert score. induction gs as [|g gs IH]; intros score; [reflexivity|].
  rewrite foldM_cons, genre_terms_cons.
  change (add_genre p score g)
    with (match p !! g with Some w => padd score w | None => Ok score end).
  destruct (p !! g) as [w|]; simpl; [|apply IH].
  unfold psum. rewrite foldM_cons.
  destruct (padd score w); simpl; [apply IH|done].
Qed.

Lemma tag_loop_psum p score ts :
  foldM (add_tag p) score ts = l ← tag_terms p ts; psum score l.
Proof.
  revert score. induction ts as [|t ts IH]; intros score; [reflexivity|].
  rewrite foldM_cons. simpl tag_terms.
  change (add_tag p score t)
    with (match p !! tag_name t with
          | Some w =>
              r ← fdiv (tag_rank t) 100.0; x ← fmul w r;
              score ← fadd score x; Ok (PyFloat score)
          | None => Ok score
          end).
  destruct (p !! tag_name t) as [w|]; simpl; [|apply IH].
  destruct (fdiv (tag_rank t) 100) as [r|]; simpl; [|done].
  destruct (fmul w r) as [x|]; simpl; [|done].
  destruct (fadd score x) as [score'|e1] eqn:Hadd; simpl.
  - rewrite IH. destruct (tag_terms p ts); simpl; [|done].
    unfold psum. simpl. by rewrite padd_float_r, Hadd.
  - destruct (tag_terms p ts) as [l|e2] eqn:Hl; simpl.
    + unfold psum. simpl. by rewrite padd_float_r, Hadd.
    + by overflow_subst.
Qed.



(** ** The order on floats *)

Lemma SFcompare_key x y :
  SFcompare x y =
    if sf_is_nan x || sf_is_nan y then None
    else Some (key_compare (sf_key x) (sf_key y)).
Proof.
  destruct x as [[]|[]| |[] m1 e1], y as [[]|[]| |[] m2 e2];
    try reflexivity; unfold key_compare; simpl.
  rewrite Z.compare_opp, (Z.compare_antisym e1 e2).
  by destruct (e1 ?= e2)%Z.
Qed.

Lemma key_compare_Lt k1 k2 : key_compare k1 k2 = Lt ↔ key_lt k1 k2.
Proof.
  unfold key_compare, key_lt.
  destruct (Z.compare_spec k1.1.1 k2.1.1), (Z.compare_spec k1.1.2 k2.1.2),
    (Z.compare_spec k1.2 k2.2); split; (congruence || lia).
Qed.

Lemma key_compare_Eq k1 k2 : key_compare k1 k2 = Eq ↔ k1 = k2.
Proof.
  unfold key_compare. destruct k1 as [[a b] c], k2 as [[a' b'] c']; simpl.
  destruct (Z.compare_spec a a'), (Z.compare_spec b b'),
    (Z.compare_spec c c'); split; intros; simplify_eq; (congruence || lia).
Qed.

Lemma key_compare_Gt k1 k2 : key_compare k1 k2 = Gt ↔ key_lt k2 k1.
Proof.
  unfold key_compare, key_lt.
  destruct (Z.compare_spec k1.1.1 k2.1.1), (Z.compare_spec k1.1.2 k2.1.2),
    (Z.compare_spec k1.2 k2.2); split; (congruence || lia).
Qed.

Lemma is_nan_spec f : is_nan f = sf_is_nan (Prim2SF f).
Proof.
  unfold is_nan. rewrite FloatAxioms.eqb_spec. unfold SFeqb.
  rewrite SFcompare_key.
  destruct (sf_is_nan (Prim2SF f)); simpl; [done|].
  by assert (key_compare (sf_key (Prim2SF f)) (sf_key (Prim2SF f)) = Eq)
    as -> by (by apply key_compare_Eq).
Qed.

Ltac float_cmp_cases a b :=
  rewrite !is_nan_spec; rewrite SFcompare_key; unfold fkey;
  destruct (sf_is_nan (Prim2SF a)), (sf_is_nan (Prim2SF b)); simpl;
  try (split; [done | intros (?&?&?); done]).

Lemma float_ltb_true a b :
  (a <? b)%float = true ↔
  is_nan a = false ∧ is_nan b = false ∧ key_lt (fkey a) (fkey b).
Proof.
  rewrite FloatAxioms.ltb_spec. unfold SFltb. float_cmp_cases a b.
  rewrite <- key_compare_Lt.
  destruct (key_compare _ _); split; try done; by intros (?&?&?).
Qed.

Lemma float_eqb_true a b :
  (a =? b)%float = true ↔
  is_nan a = false ∧ is_nan b = false ∧ fkey a = fkey b.
Proof.
  rewrite FloatAxioms.eqb_spec. unfold SFeqb. float_cmp_cases a b.
  rewrite <- key_compare_Eq.
  destruct (key_compare _ _); split; try done; by intros (?&?&?).
Qed.

Lemma float_leb_true a b :
  (a <=? b)%float = true ↔
  is_nan a = false ∧ is_nan b = false ∧ ¬ key_lt (fkey b) (fkey a).
Proof.
  rewrite FloatAxioms.leb_spec. unfold SFleb. float_cmp_cases a b.
  rewrite <- key_compare_Gt.
  destruct (key_compare _ _); split; try done;
    try (by intros (?&?&?)); by intros [=].
Qed.

Lemma float_leb_trans a b c :
  (a <=? b)%float = true → (b <=? c)%float = true → (a <=? c)%float = true.
Proof.
  rewrite !float_leb_true. unfold key_lt.
  intros (?&?&?) (?&?&?). repeat split; try done. lia.
Qed.

Lemma float_ltb_false_leb a b :
  is_nan a = false → is_nan b = false →
  (a <? b)%float = false → (b <=? a)%float = true.
Proof.
  intros Ha Hb Hlt. apply float_leb_true. repeat split; try done.
  intros Hk. assert ((a <? b)%float = true) by (by apply float_ltb_true).
  congruence.
Qed.

Lemma float_ltb_eqb_false x y v :
  (x <? y)%float = true → (x =? v)%float = true → (y =? v)%float = false.
Proof.
  rewrite float_ltb_true, float_eqb_true. intros (?&?&Hk) (?&?&Hv).
  apply not_true_is_false. rewrite float_eqb_true. intros (?&?&Hy).
  rewrite Hv, Hy in Hk. unfold key_lt in Hk. lia.
Qed.

Lemma float_leb_antisym a b :
  (a <=? b)%float = true → (b <=? a)%float = true → (a =? b)%float = true.
Proof.
  rewrite !float_leb_true, float_eqb_true. unfold key_lt.
  intros (?&?&?) (?&?&?). repeat split; try done.
  destruct (fkey a) as [[??]?], (fkey b) as [[??]?]; simpl in *.
  f_equal; [f_equal|]; lia.
Qed.

(** ** Adding the two zero terms *)

Lemma Prim2SF_add_zero x :
  Prim2SF (x + 0)%float =
    match Prim2SF x with
    | S754_zero _ => S754_zero false
    | sx => sx
    end.
Proof.
  rewrite add_spec.
  change (Prim2SF 0) with (S754_zero false).
  by destruct (Prim2SF x) as [[]|[]| |[]].
Qed.

(** [x + 0 + 0] is [x], except that it is [0.0] when [x] is [-0.0]: in
    every case it compares as [x] does. *)
Lemma float_add_zero_zero x :
  fkey (x + 0 + 0)%float = fkey x ∧ is_nan (x + 0 + 0)%float = is_nan x.
Proof.
  rewrite !is_nan_spec. unfold fkey. rewrite !Prim2SF_add_zero.
  by destruct (Prim2SF x) as [[]|[]| |[]].
Qed.

(** ** The sort *)

Lemma insert_desc_perm x l : insert_desc x l ≡ₚ x :: l.
Proof.
  induction l as [|y l IH]; simpl; [done|].
  destruct (x.2 <? y.2)%float; [|done].
  by rewrite IH, Permutation_swap.
Qed.

Lemma sort_desc_perm l : sort_desc l ≡ₚ l.
Proof.
  induction l as [|x l IH]; simpl; [done|].
  by rewrite insert_desc_perm, IH.
Qed.

Lemma insert_desc_sorted x l :
  not_nan x → Forall not_nan l →
  StronglySorted score_ge l → StronglySorted score_ge (insert_desc x l).
Proof.
  intros Hx Hl Hs. induction Hs as [|y l Hs IH Hy]; simpl.
  { repeat constructor. }
  apply Forall_cons in Hl as [Hny Hl].
  destruct (x.2 <? y.2)%float eqn:Hlt.
  - constructor; [by apply IH|].
    rewrite insert_desc_perm. constructor; [|done].
    apply float_ltb_true in Hlt as (?&?&Hk).
    apply float_leb_true. repeat split; try done.
    unfold key_lt in *. lia.
  - assert (score_ge x y) as Hxy by (by apply float_ltb_false_leb).
    constructor; [by constructor|].
    constructor; [done|].
    eapply Forall_impl; [exact Hy|]. intros z Hz.
    unfold score_ge in *. by eapply float_leb_trans.
Qed.

Lemma sort_desc_sorted l :
  Forall not_nan l → StronglySorted score_ge (sort_desc l).
Proof.
  induction 1 as [|x l Hx Hl IH]; simpl; [constructor|].
  apply insert_desc_sorted; [done| |done].
  by rewrite sort_desc_perm.
Qed.

Lemma insert_desc_stable v x l :
  filter (has_score v) (insert_desc x l) = filter (has_score v) (x :: l).
Proof.
  induction l as [|y l IH]; simpl; [done|].
  destruct (x.2 <? y.2)%float eqn:Hlt; [|done].
  rewrite !filter_cons in *.
  destruct (decide (has_score v x)) as [Hx|Hx].
  - assert (has_score v y = false) as Hy.
    { unfold has_score in *. eapply float_ltb_eqb_false; [done|].
      by apply Is_true_true. }
    destruct (decide (has_score v y)) as [Hy'|]; [by rewrite Hy in Hy'|done].
  - destruct (decide (has_score v y)); by rewrite IH.
Qed.

Lemma sort_desc_stable v l :
  filter (has_score v) (sort_desc l) = filter (has_score v) l.
Proof.
  induction l as [|x l IH]; simpl; [done|].
  by rewrite insert_desc_stable, !filter_cons, IH.
Qed.

Lemma filter_take_prefix {A} (P : A → Prop) `{!∀ x, Decision (P x)} n
    (l : list A) :
  filter P (take n l) `prefix_of` filter P l.
Proof.
  rewrite <- (take_drop n l) at 2. rewrite filter_app. by apply prefix_app_r.
Qed.

(** When no score is [nan], a list in descending order of score that is a
    permutation of [l] and keeps candidates of equal score in their order
    in [l] is the list that [sort_desc] returns: on such scores every
    stable sort agrees with it. *)
Lemma stable_sorted_eq l1 l2 :
  Forall not_nan l1 →
  StronglySorted score_ge l1 → StronglySorted score_ge l2 →
  l1 ≡ₚ l2 →
  (∀ v, filter (has_score v) l1 = filter (has_score v) l2) →
  l1 = l2.
Proof.
  intros Hn Hs1. revert l2.
  induction Hs1 as [|x l1 Hs1 IH Hx]; intros l2 Hs2 Hp Hf.
  { by apply Permutation_nil in Hp. }
  destruct Hs2 as [|y l2 Hs2 Hy].
  { by apply Permutation_nil_r in Hp. }
  apply Forall_cons in Hn as [Hnx Hn].
  assert (Forall not_nan (y :: l2)) as [Hny Hn2]%Forall_cons.
  { rewrite <- Hp. by constructor. }
  assert (score_ge x y) as Hxy.
  { assert (y ∈ x :: l1) as [->|Hin]%elem_of_cons by (rewrite Hp; left).
    - unfold score_ge. apply float_ltb_false_leb; try done.
      apply not_true_is_false. rewrite float_ltb_true.
      intros (?&?&Hk). unfold key_lt in Hk. lia.
    - by eapply Forall_forall in Hx. }
  assert (score_ge y x) as Hyx.
  { assert (x ∈ y :: l2) as [->|Hin]%elem_of_cons by (rewrite <- Hp; left).
    - done.
    - by eapply Forall_forall in Hy. }
  assert (has_score x.2 x) as Hvx.
  { apply Is_true_true, float_eqb_true. by repeat split. }
  assert (has_score x.2 y) as Hvy.
  { apply Is_true_true. by apply float_leb_antisym. }
  assert (x = y) as <-.
  { specialize (Hf x.2). rewrite !filter_cons in Hf.
    rewrite !decide_True in Hf by done. by injection Hf. }
  f_equal. apply IH; [done|done|by apply (inj (cons x))|].
  intros v. specialize (Hf v). rewrite !filter_cons in Hf.
  destruct (decide (has_score v x)); [by injection Hf|done].
Qed.

Lemma stable_sort_unique l l' :
  Forall not_nan l →
  StronglySorted score_ge l' → l' ≡ₚ l →
  (∀ v, filter (has_score v) l' = filter (has_score v) l) →
  l' = sort_desc l.
Proof.
  intros Hn Hs Hp Hf. apply stable_sorted_eq; try done.
  - by rewrite Hp.
  - by apply sort_desc_sorted.
  - by rewrite sort_desc_perm.
  - intros v. by rewrite sort_desc_stable.
Qed.

(** ** The loop of recommend_top_media *)

Section recommender_facts.
Context `{PyLib}.

Lemma mapM_res_cons {A B} (f : A → res B) x l :
  mapM f (x :: l) = y ← f x; k ← mapM f l; Ok (y :: k).
Proof. reflexivity. Qed.

Lemma mapM_res_elem_of {A B} (f : A → res B) l k y :
  mapM f l = Ok k → y ∈ k → ∃ x, x ∈ l ∧ f x = Ok y.
Proof.
  revert k. induction l as [|x l IH]; intros k.
  { intros [= <-] Hy. by apply elem_of_nil in Hy. }
  rewrite mapM_res_cons. destruct (f x) as [y'|] eqn:Hx; simpl; [|done].
  destruct (mapM f l) as [k'|] eqn:Hl; simpl; [|done].
  intros [= <-] [->|Hy]%elem_of_cons.
  - exists x. split; [left|done].
  - destruct (IH k' eq_refl Hy) as (x'&?&?). exists x'. split; [by right|done].
Qed.

Lemma recommend_step_eq pref planned watched dg acc m :
  recommend_step pref planned watched dg acc m =
    if survives watched dg m
    then c ← scored pref planned dg m; Ok (acc ++ [c])
    else Ok acc.
Proof.
  unfold recommend_step, survives, scored.
  destruct (bool_decide (media_id m ∈ watched)); simpl; [done|].
  destruct (genre_filtered_out dg m); simpl; [done|].
  by destruct (compute_similarity m pref).
Qed.

Lemma recommend_loop pref planned watched dg acc ms :
  foldM (recommend_step pref planned watched dg) acc ms =
    l ← mapM (scored pref planned dg) (filter (survives watched dg) ms);
    Ok (acc ++ l).
Proof.
  revert acc. induction ms as [|m ms IH]; intros acc.
  { simpl. by rewrite app_nil_r. }
  rewrite foldM_cons, recommend_step_eq, filter_cons.
  destruct (survives watched dg m) eqn:Hs; simpl.
  - destruct (scored pref planned dg m) as [c|]; simpl; [|done].
    rewrite IH. destruct (mapM _ _); simpl; [|done].
    by rewrite <- app_assoc.
  - apply IH.
Qed.

Lemma mapM_res_Forall2 {A B} (f : A → res B) l k :
  mapM f l = Ok k → Forall2 (λ x y, f x = Ok y) l k.
Proof.
  revert k. induction l as [|x l IH]; intros k.
  { intros [= <-]. constructor. }
  rewrite mapM_res_cons. destruct (f x) as [y|] eqn:Hx; simpl; [|done].
  destruct (mapM f l) as [k'|] eqn:Hl; simpl; [|done].
  intros [= <-]. constructor; [done|by apply IH].
Qed.

(** The pool of candidates is the list of the surviving catalog items, in
    catalog order, each with its score. *)
Lemma scored_candidates_inv s dg recs :
  scored_candidates s dg = Ok recs →
  ∃ pref ms,
    get_user_preferences (personal s) = Ok pref ∧
    get_global_media (global s) = Ok ms ∧
    mapM (scored pref (get_user_planned_media_ids (personal s)) dg)
         (filter (survives (get_user_watched_media_ids (personal s)) dg) ms)
      = Ok recs.
Proof.
  unfold scored_candidates.
  destruct (get_user_preferences (personal s)) as [pref|]; simpl; [|done].
  destruct (get_global_media (global s)) as [ms|]; simpl; [|done].
  rewrite recommend_loop. intros Hl. exists pref, ms. repeat split.
  by destruct (mapM _ _); simplify_eq/=.
Qed.

Lemma scored_inv pref planned dg m c :
  scored pref planned dg m = Ok c →
  c.1 = m ∧ ∃ sim, compute_similarity m pref = Ok sim ∧
    c.2 = planned_boost planned m (genre_boost dg m sim).
Proof.
  unfold scored. destruct (compute_similarity m pref) as [sim|]; [|done].
  intros [= <-]. eauto.
Qed.

Lemma candidate_inv s dg recs c :
  scored_candidates s dg = Ok recs → c ∈ recs →
  ∃ pref ms sim,
    get_user_preferences (personal s) = Ok pref ∧
    get_global_media (global s) = Ok ms ∧
    c.1 ∈ ms ∧
    survives (get_user_watched_media_ids (personal s)) dg c.1 = true ∧
    compute_similarity c.1 pref = Ok sim ∧
    c.2 = planned_boost (get_user_planned_media_ids (personal s)) c.1
            (genre_boost dg c.1 sim).
Proof.
  intros (pref&ms&Hp&Hm&Hl)%scored_candidates_inv Hc.
  destruct (mapM_res_elem_of _ _ _ _ Hl Hc) as (m&Hin&Hs).
  apply scored_inv in Hs as (<-&sim&?&?).
  apply list_elem_of_filter in Hin as [Hsv ?].
  exists pref, ms, sim. repeat split; try done. by apply Is_true_true.
Qed.

Lemma slice_to_take {A} n (l : list A) :
  ∃ k, slice_to n l = take k l ∧ ((0 ≤ n)%Z → k = Z.to_nat n).
Proof.
  unfold slice_to. destruct (Z.leb_spec 0 n); eauto.
  eexists. split; [done|lia].
Qed.

Lemma recommend_top_media_inv s top_n dg out :
  recommend_top_media s top_n dg = Ok out →
  ∃ recs, scored_candidates s dg = Ok recs ∧
    out = slice_to top_n (sort_desc recs) ∧ ∀ c, c ∈ out → c ∈ recs.
Proof.
  unfold recommend_top_media.
  destruct (scored_candidates s dg) as [recs|]; simpl; [|done].
  intros [= <-]. exists recs. repeat split.
  intros c Hc. destruct (slice_to_take top_n (sort_desc recs)) as (k&Hk&_).
  rewrite Hk in Hc. apply subseteq_take in Hc.
  by rewrite sort_desc_perm in Hc.
Qed.

(** C3. For every catalog, profile, planned set and watched set, no
    catalog item whose id is in the watched set appears in the output of
    the recommendation engine, whatever its score, [desired_genre] and
    [top_n]. *)
Theorem watched_never_recommended s top_n dg out :
  recommend_top_media s top_n dg = Ok out →
  ∀ c, c ∈ out →
    media_id c.1 ∉ get_user_watched_media_ids (personal s).
Proof.
  intros (recs&Hr&_&Hsub)%recommend_top_media_inv c Hc%Hsub.
  destruct (candidate_inv _ _ _ _ Hr Hc) as (?&?&?&_&_&_&Hsv&_).
  unfold survives in Hsv. apply andb_true_iff in Hsv as [Hw _].
  apply negb_true_iff in Hw. by apply bool_decide_eq_false in Hw.
Qed.

(** C4. When [desired_genre] is set, an item is among the candidates only
    if the lower-cased desired genre is one of its lower-cased genres or
    lower-cased tag names; the similarity of such a candidate is
    multiplied by 1.2 when the desired genre is among its genres, and
    otherwise (it is then among its tag names) by 1.1, never by both. *)
Theorem desired_genre_filter_and_boost s dg d recs :
  truthy_str dg = Some d →
  scored_candidates s dg = Ok recs →
  ∀ c, c ∈ recs →
    (str_lower d ∈ genres_lower c.1 ∨ str_lower d ∈ tags_lower c.1) ∧
    ∃ pref sim,
      get_user_preferences (personal s) = Ok pref ∧
      compute_similarity c.1 pref = Ok sim ∧
      genre_boost dg c.1 sim =
        (if bool_decide (str_lower d ∈ genres_lower c.1)
         then sim * 1.2 else sim * 1.1)%float ∧
      c.2 = planned_boost (get_user_planned_media_ids (personal s)) c.1
              (genre_boost dg c.1 sim).
Proof.
  intros Hd Hr c Hc.
  destruct (candidate_inv _ _ _ _ Hr Hc) as (pref&ms&sim&Hp&_&_&Hsv&Hsim&Hc2).
  unfold survives in Hsv. apply andb_true_iff in Hsv as [_ Hf].
  apply negb_true_iff in Hf. unfold genre_filtered_out in Hf.
  rewrite Hd in Hf.
  assert (str_lower d ∈ genres_lower c.1 ∨ str_lower d ∈ tags_lower c.1)
    as Hmatch.
  { apply andb_false_iff in Hf as [Hf|Hf]; apply bool_decide_eq_false in Hf.
    - left. by apply dec_stable.
    - right. by apply dec_stable. }
  split; [done|]. exists pref, sim. repeat split; try done.
  unfold genre_boost. rewrite Hd.
  destruct (bool_decide (str_lower d ∈ genres_lower c.1)) eqn:Hg; [done|].
  apply bool_decide_eq_false in Hg. destruct Hmatch as [?|Ht]; [done|].
  by rewrite bool_decide_true.
Qed.

(** C5. For every candidate that passes the watched-set and genre
    filters, with [S] its similarity after the genre or tag boost: its
    final score is exactly [S * 1.5] if its id is in the planned set, and
    [S] otherwise.  The candidates are exactly the catalog items that
    pass the filters, in catalog order. *)
Theorem planned_boost_exact s dg recs :
  scored_candidates s dg = Ok recs →
  ∃ pref ms,
    get_user_preferences (personal s) = Ok pref ∧
    get_global_media (global s) = Ok ms ∧
    Forall2
      (λ m c, c.1 = m ∧ ∃ sim,
         compute_similarity m pref = Ok sim ∧
         let S := genre_boost dg m sim in
         c.2 = if bool_decide
                   (media_id m ∈ get_user_planned_media_ids (personal s))
               then (S * 1.5)%float else S)
      (filter (survives (get_user_watched_media_ids (personal s)) dg) ms)
      recs.
Proof.
  intros (pref&ms&Hp&Hm&Hl)%scored_candidates_inv.
  exists pref, ms. repeat split; try done.
  apply mapM_res_Forall2 in Hl. eapply Forall2_impl; [exact Hl|].
  intros m c Hs. by apply scored_inv in Hs.
Qed.

(** C6, amended. For every pool of candidates in which no score is [nan]
    and every positive [top_n], the engine returns [min top_n (size of the
    pool)] pairs, hence at most [top_n], in descending order of score;
    they are the highest-scoring candidates (no candidate left out has a
    higher score than one returned), and candidates of equal score keep
    their catalog order (those returned are the first ones of that
    score). *)
Theorem top_n_sorted_stable s top_n dg recs :
  scored_candidates s dg = Ok recs →
  Forall not_nan recs →
  (0 < top_n)%Z →
  ∃ out rest,
    recommend_top_media s top_n dg = Ok out ∧
    length out = (Z.to_nat top_n `min` length recs)%nat ∧
    StronglySorted score_ge out ∧
    out ++ rest ≡ₚ recs ∧
    (∀ c c', c ∈ out → c' ∈ rest → score_ge c c') ∧
    (∀ v, filter (has_score v) out `prefix_of` filter (has_score v) recs).
Proof.
  intros Hr Hn Hpos.
  exists (take (Z.to_nat top_n) (sort_desc recs)),
         (drop (Z.to_nat top_n) (sort_desc recs)).
  pose proof (sort_desc_sorted recs Hn) as Hs.
  rewrite <- (take_drop (Z.to_nat top_n) (sort_desc recs)) in Hs.
  apply StronglySorted_app in Hs as (Hcross&Hs1&Hs2).
  repeat split.
  - unfold recommend_top_media. rewrite Hr. simpl. unfold slice_to.
    by destruct (Z.leb_spec 0 top_n); [|lia].
  - by rewrite length_take, (Permutation_length (sort_desc_perm recs)).
  - done.
  - by rewrite take_drop, sort_desc_perm.
  - intros c c' Hc Hc'. by apply Hcross.
  - intros v. rewrite <- (sort_desc_stable v recs).
    apply filter_take_prefix.
Qed.

(** ** get_user_preferences *)

Lemma bump_lookup term score (p p' : profile) k :
  bump score p k = Ok p' →
  (if bool_decide (k = term)
   then w ← padd (default (PyInt 0) (p !! term)) score; Ok (Some w)
   else Ok (p !! term)) = Ok (p' !! term).
Proof.
  unfold bump. case_bool_decide as Hk.
  - subst k. destruct (padd _ score) as [w|]; simpl; [|done].
    intros [= <-]. by rewrite lookup_insert_eq.
  - destruct (padd _ score) as [w|]; simpl; [|done].
    intros [= <-]. by rewrite lookup_insert_ne.
Qed.

Lemma bump_loop term score (p p' : profile) ks :
  foldM (bump score) p ks = Ok p' →
  add_occurrences term score (p !! term) ks = Ok (p' !! term).
Proof.
  unfold add_occurrences. revert p.
  induction ks as [|k ks IH]; intros p; simpl.
  { by intros [= <-]. }
  destruct (bump score p k) as [p1|] eqn:Hb; simpl; [|done].
  intros Hl. rewrite (bump_lookup term _ _ _ _ Hb). simpl. by apply IH.
Qed.

Lemma add_occurrences_app term score w l1 l2 :
  add_occurrences term score w (l1 ++ l2) =
    w' ← add_occurrences term score w l1;
    add_occurrences term score w' l2.
Proof. apply foldM_app. Qed.

Lemma preference_step_lookup term (p p' : profile) row :
  preference_step p row = Ok p' →
  add_occurrences term row.2 (p !! term) (row_terms row) = Ok (p' !! term).
Proof.
  destruct row as [[g t] score]. unfold preference_step, row_terms. simpl.
  destruct (foldM (bump score) p (genres_or_empty g)) as [p1|] eqn:H1;
    simpl; [|done].
  intros H2. rewrite add_occurrences_app.
  rewrite (bump_loop term _ _ _ _ H1). simpl.
  by apply bump_loop.
Qed.

Lemma preference_loop_lookup term (p p' : profile) rows :
  foldM preference_step p rows = Ok p' →
  foldM (λ weight row, add_occurrences term row.2 weight (row_terms row))
        (p !! term) rows = Ok (p' !! term).
Proof.
  revert p. induction rows as [|row rows IH]; intros p; simpl.
  { by intros [= <-]. }
  destruct (preference_step p row) as [p1|] eqn:Hs; simpl; [|done].
  intros Hl. rewrite (preference_step_lookup term _ _ _ Hs). simpl.
  by apply IH.
Qed.


(** The profile builder reads a malformed text as an empty list, and
    never raises a decoding error. *)
Lemma profile_builder_tolerates_malformed g s :
  truthy_str g = Some s → loads_genres s = None → genres_or_empty g = [].
Proof. unfold genres_or_empty. by intros -> ->. Qed.

Lemma profile_builder_tolerates_malformed_tags t s :
  truthy_str t = Some s → loads_tags s = None → tags_or_empty t = [].
Proof. unfold tags_or_empty. by intros -> ->. Qed.

Lemma get_user_preferences_overflow db :
  overflow_only (get_user_preferences db).
Proof.
  apply overflow_only_foldM. intros p [[g t] score]. unfold preference_step.
  apply overflow_only_bind; [|intros ?];
    apply overflow_only_foldM; intros; unfold bump; solve_overflow.
Qed.

(** ** get_global_media *)

Lemma media_of_row_malformed row :
  malformed row → media_of_row row = Raise JSONDecodeError.
Proof.
  unfold media_of_row, loads_or_raise.
  intros [(s&->&->)|(s&->&->)]; [done|].
  destruct (truthy_str (g_genres row)); [|done].
  by destruct (loads_genres _).
Qed.

Lemma get_global_media_loop acc db :
  foldM (λ media_list row, m ← media_of_row row; Ok (media_list ++ [m]))
        acc db
  = l ← mapM media_of_row db; Ok (acc ++ l).
Proof.
  revert acc. induction db as [|row db IH]; intros acc.
  { simpl. by rewrite app_nil_r. }
  rewrite foldM_cons, mapM_res_cons.
  destruct (media_of_row row) as [m|]; simpl; [|done].
  rewrite IH. destruct (mapM _ _); simpl; [|done].
  by rewrite <- app_assoc.
Qed.

Lemma media_of_row_raises row e :
  media_of_row row = Raise e → e = JSONDecodeError.
Proof.
  unfold media_of_row, loads_or_raise.
  destruct (truthy_str (g_genres row)) as [s|];
    [destruct (loads_genres s)|]; simpl;
    (destruct (truthy_str (g_tags row)) as [s'|];
      [destruct (loads_tags s')|]); simpl; congruence.
Qed.

Lemma mapM_media_of_row_raises db e :
  mapM media_of_row db = Raise e → e = JSONDecodeError.
Proof.
  induction db as [|row db IH]; [done|]. rewrite mapM_res_cons.
  destruct (media_of_row row) as [m|e'] eqn:Hr; simpl.
  - destruct (mapM media_of_row db); simpl; [done|].
    intros [= <-]. by apply IH.
  - intros [= <-]. by eapply media_of_row_raises.
Qed.

(** C7 (catalog reader). A catalog that holds a row whose genres or tags
    text is malformed makes [get_global_media] raise: the text does not
    degrade to an empty list there. *)
Theorem catalog_reader_raises_on_malformed db row :
  row ∈ db → malformed row → get_global_media db = Raise JSONDecodeError.
Proof.
  intros Hin Hbad. unfold get_global_media. rewrite get_global_media_loop.
  destruct (mapM media_of_row db) as [l|e] eqn:Hl; simpl.
  - apply mapM_res_Forall2 in Hl.
    apply list_elem_of_lookup in Hin as [i Hi].
    destruct (Forall2_lookup_l _ _ _ _ _ Hl Hi) as (m&_&Hm).
    by rewrite media_of_row_malformed in Hm.
  - by rewrite (mapM_media_of_row_raises _ _ Hl).
Qed.

End recommender_facts.

(** ** The re-ranker *)

Section reranker_facts.
Context `{ReplyLib}.

Lemma mapM_option_None {A B} (f : A → option B) l x :
  x ∈ l → f x = None → mapM f l = None.
Proof.
  intros Hx Hf. destruct (mapM f l) as [k|] eqn:Hk; [|done].
  apply mapM_Some_1 in Hk.
  apply list_elem_of_lookup in Hx as [i Hi].
  destruct (Forall2_lookup_l _ _ _ _ _ Hk Hi) as (y&_&Hy). congruence.
Qed.

Lemma parse_failure_None text :
  parse_failure text → parse_candidate_ids text = None.
Proof.
  unfold parse_candidate_ids.
  intros [Hl|j Hl Hg|j v Hl Hg Hi|j v cids cid Hl Hg Hi Hin Hc];
    rewrite Hl; simpl; [done|by rewrite Hg|by rewrite Hg; simpl; rewrite Hi|].
  rewrite Hg. simpl. rewrite Hi. simpl. by eapply mapM_option_None.
Qed.

(** C8, amended. For every query and candidate list, when a reply was
    obtained and parsing it fails (the text is not JSON, the document is
    not an object, the value under candidate_ids cannot be iterated, or
    [int] rejects one of its entries), the re-ranker returns the
    candidate ids in their input order and does not raise. *)
Theorem reranker_fallback_on_parse_failure generate query candidates text :
  generate (build_prompt query candidates) = Ok text →
  parse_failure text →
  rerank_candidates_with_gemini generate query candidates
    = Ok (c_id <$> candidates).
Proof.
  intros Hg Hp. unfold rerank_candidates_with_gemini. rewrite Hg. simpl.
  by rewrite parse_failure_None.
Qed.

(** What the service raises reaches the caller. *)
Lemma reranker_api_error_propagates generate query candidates e :
  generate (build_prompt query candidates) = Raise e →
  rerank_candidates_with_gemini generate query candidates = Raise e.
Proof.
  intros Hg. unfold rerank_candidates_with_gemini. by rewrite Hg.
Qed.

(** An object without the key yields the empty list. *)
Lemma reranker_missing_key generate query candidates text kvs :
  generate (build_prompt query candidates) = Ok text →
  loads text = Some (JObj kvs) →
  list_to_map (M := gmap string json) kvs !! "candidate_ids" = None →
  rerank_candidates_with_gemini generate query candidates = Ok [].
Proof.
  intros Hg Hl Hk. unfold rerank_candidates_with_gemini, parse_candidate_ids.
  rewrite Hg. simpl. rewrite Hl. simpl. by rewrite Hk.
Qed.
End reranker_facts.

(** ** Examples and instances *)

(** Testable property 2: a tag [{name: Tragedy, rank: 50}] against a weight
    of 10 contributes [10 * 0.5 = 5.0]. *)
Example tag_damping :
  compute_similarity
    (Media 1 None None None [] [TagDict (Some "Tragedy") (Some (PyInt 50))]
       None None)
    (<["Tragedy" := PyInt 10]> ∅) = Ok 5%float.
Proof. vm_compute. reflexivity. Qed.

Example similarity_of_m_scored :
  compute_similarity m_scored sample_profile
    = Ok (16 + 7 * (50 / 100) + 16 * (1 / 100) + 80 * 0.1 + 250000 / 1000000)%float.
Proof. vm_compute. reflexivity. Qed.

(** Testable property 1: two completed entries with scores 7 and 9 that
    share the genre Action give it the weight 16. *)
Example action_weight_16 :
  (p ← get_user_preferences (H := sample_lib) sample_personal;
   Ok (p !! "Action")) = Ok (Some (PyInt 16)).
Proof. vm_compute. reflexivity. Qed.

(** Testable property 5: the desired genre matches both a genre and a tag
    of the item; the multiplier is 1.2. *)
Example genre_takes_precedence :
  genre_boost (H := sample_lib) (Some "Comedy")
    (Media 1 None None None ["Comedy"] [TagStr "Comedy"] None None) 10
  = (10 * 1.2)%float.
Proof. vm_compute. reflexivity. Qed.

Example recommend_sample :
  recommend_top_media (H := sample_lib) sample_stores 10 None = Ok top_any.
Proof. vm_compute. reflexivity. Qed.

(** A negative [top_n] drops the last recommendations. *)
Example recommend_sample_negative :
  recommend_top_media (H := sample_lib) sample_stores (-1) None
    = Ok (take 3 top_any).
Proof. vm_compute. reflexivity. Qed.


Lemma watched_never_recommended_witness :
  recommend_top_media (H := sample_lib) sample_stores 10 None = Ok top_any
  ∧ (m10, 16%float) ∈ top_any
  ∧ media_id (m10, 16%float).1
      ∉ get_user_watched_media_ids sample_personal.
Proof.
  assert (recommend_top_media (H := sample_lib) sample_stores 10 None
            = Ok top_any) as Hr by (vm_compute; reflexivity).
  assert ((m10, 16%float) ∈ top_any) as Hin by constructor.
  split; [exact Hr|]. split; [exact Hin|].
  exact (watched_never_recommended (H := sample_lib)
           sample_stores 10 None top_any Hr (m10, 16%float) Hin).
Defined.

Lemma desired_genre_filter_and_boost_witness :
  truthy_str (Some "COMEDY") = Some "COMEDY"
  ∧ scored_candidates (H := sample_lib) sample_stores (Some "COMEDY")
      = Ok pool_comedy
  ∧ (m10, (16 * 1.1)%float) ∈ pool_comedy
  ∧ (str_lower (PyLib := sample_lib) "COMEDY" ∈ genres_lower (H := sample_lib) m10
     ∨ str_lower (PyLib := sample_lib) "COMEDY" ∈ tags_lower (H := sample_lib) m10)
  ∧ ∃ pref sim,
      get_user_preferences (H := sample_lib) sample_personal = Ok pref ∧
      compute_similarity m10 pref = Ok sim ∧
      genre_boost (H := sample_lib) (Some "COMEDY") m10 sim =
        (if bool_decide (str_lower (PyLib := sample_lib) "COMEDY"
                           ∈ genres_lower (H := sample_lib) m10)
         then sim * 1.2 else sim * 1.1)%float ∧
      (16 * 1.1)%float =
        planned_boost (get_user_planned_media_ids sample_personal) m10
          (genre_boost (H := sample_lib) (Some "COMEDY") m10 sim).
Proof.
  assert (scored_candidates (H := sample_lib) sample_stores (Some "COMEDY")
            = Ok pool_comedy) as Hr by (vm_compute; reflexivity).
  assert ((m10, (16 * 1.1)%float) ∈ pool_comedy) as Hin by do 2 constructor.
  split; [reflexivity|]. split; [exact Hr|]. split; [exact Hin|].
  exact (desired_genre_filter_and_boost (H := sample_lib) sample_stores
           (Some "COMEDY") "COMEDY" pool_comedy eq_refl Hr
           (m10, (16 * 1.1)%float) Hin).
Defined.

Lemma planned_boost_exact_witness :
  scored_candidates (H := sample_lib) sample_stores None = Ok pool_any
  ∧ ∃ pref ms,
      get_user_preferences (H := sample_lib) sample_personal = Ok pref ∧
      get_global_media (H := sample_lib) sample_global = Ok ms ∧
      Forall2
        (λ m c, c.1 = m ∧ ∃ sim,
           compute_similarity m pref = Ok sim ∧
           let S := genre_boost (H := sample_lib) None m sim in
           c.2 = if bool_decide
                     (media_id m ∈ get_user_planned_media_ids sample_personal)
                 then (S * 1.5)%float else S)
        (filter (survives (H := sample_lib)
                   (get_user_watched_media_ids sample_personal) None) ms)
        pool_any.
Proof.
  assert (scored_candidates (H := sample_lib) sample_stores None
            = Ok pool_any) as Hr by (vm_compute; reflexivity).
  split; [exact Hr|].
  exact (planned_boost_exact (H := sample_lib) sample_stores None pool_any Hr).
Defined.

Lemma top_n_sorted_stable_witness :
  scored_candidates (H := sample_lib) sample_stores None = Ok pool_any
  ∧ Forall not_nan pool_any
  ∧ (0 < 3)%Z
  ∧ ∃ out rest,
      recommend_top_media (H := sample_lib) sample_stores 3 None = Ok out ∧
      length out = (Z.to_nat 3 `min` length pool_any)%nat ∧
      StronglySorted score_ge out ∧
      out ++ rest ≡ₚ pool_any ∧
      (∀ c c', c ∈ out → c' ∈ rest → score_ge c c') ∧
      (∀ v, filter (has_score v) out
              `prefix_of` filter (has_score v) pool_any).
Proof.
  assert (scored_candidates (H := sample_lib) sample_stores None
            = Ok pool_any) as Hr by (vm_compute; reflexivity).
  assert (Forall not_nan pool_any) as Hn
    by (repeat constructor; vm_compute; reflexivity).
  assert (0 < 3)%Z as Hpos by reflexivity.
  split; [exact Hr|]. split; [exact Hn|]. split; [exact Hpos|].
  exact (top_n_sorted_stable (H := sample_lib) sample_stores 3 None pool_any
           Hr Hn Hpos).
Defined.

Lemma catalog_reader_raises_on_malformed_witness :
  bad_row ∈ sample_global ++ [bad_row]
  ∧ malformed (H := sample_lib) bad_row
  ∧ get_global_media (H := sample_lib) (sample_global ++ [bad_row])
      = Raise JSONDecodeError.
Proof.
  assert (bad_row ∈ sample_global ++ [bad_row]) as Hin
    by (apply elem_of_app; right; constructor).
  assert (malformed (H := sample_lib) bad_row) as Hbad
    by (left; exists text_malformed; split; vm_compute; reflexivity).
  split; [exact Hin|]. split; [exact Hbad|].
  exact (catalog_reader_raises_on_malformed (H := sample_lib)
           (sample_global ++ [bad_row]) bad_row Hin Hbad).
Defined.


Lemma reranker_fallback_on_parse_failure_witness :
  api_reply reply_not_json (build_prompt "best anime" sample_candidates)
    = Ok reply_not_json
  ∧ parse_failure (H := sample_reply_lib) reply_not_json
  ∧ rerank_candidates_with_gemini (H := sample_reply_lib)
      (api_reply reply_not_json) "best anime" sample_candidates
    = Ok (c_id <$> sample_candidates).
Proof.
  assert (parse_failure (H := sample_reply_lib) reply_not_json) as Hp
    by (apply not_json; vm_compute; reflexivity).
  split; [reflexivity|]. split; [exact Hp|].
  exact (reranker_fallback_on_parse_failure (H := sample_reply_lib)
           (api_reply reply_not_json) "best anime" sample_candidates
           reply_not_json eq_refl Hp).
Defined.

(** C8 as stated fails: when the service raises, the re-ranker raises; when
    the reply is a JSON object without the key candidate_ids, it returns
    the empty list.  In neither case does it return the candidate ids
    [1; 2] in their input order. *)
Lemma reranker_contract_counterexample :
  c_id <$> sample_candidates = [1; 2]
  ∧ rerank_candidates_with_gemini (H := sample_reply_lib)
      api_down "best anime" sample_candidates = Raise ApiError
  ∧ sample_loads reply_no_key = Some (JObj [])
  ∧ rerank_candidates_with_gemini (H := sample_reply_lib)
      (api_reply reply_no_key) "best anime" sample_candidates = Ok []
  ∧ rerank_candidates_with_gemini (H := sample_reply_lib)
      api_down "best anime" sample_candidates
      ≠ Ok (c_id <$> sample_candidates)
  ∧ rerank_candidates_with_gemini (H := sample_reply_lib)
      (api_reply reply_no_key) "best anime" sample_candidates
      ≠ Ok (c_id <$> sample_candidates).
Proof.
  repeat split; try (vm_compute; reflexivity); vm_compute; discriminate.
Qed.

(** A list of two candidates or more in descending order holds no [nan]. *)
Lemma sorted_not_nan l :
  StronglySorted score_ge l → (2 ≤ length l)%nat → Forall not_nan l.
Proof.
  intros Hs Hlen. destruct Hs as [|x l Hs Hx]; [constructor|].
  destruct l as [|y l]; [simpl in Hlen; lia|].
  assert (Forall not_nan (y :: l)) as Hl.
  { eapply Forall_impl; [exact Hx|]. intros z Hz.
    unfold score_ge in Hz. apply float_leb_true in Hz. by destruct Hz. }
  constructor; [|done].
  apply Forall_cons in Hx as [Hy _]. unfold score_ge in Hy.
  apply float_leb_true in Hy. by destruct Hy as (_&?&_).
Qed.

(** C6 as stated fails.  Two ratings of [1e308] give Action the weight
    [inf], and the tag Action of rank 0 gives the second item the
    similarity [inf * 0.0 = nan]: no arrangement of the three candidates
    is in descending order.  The engine leaves them in catalog order, and
    for [top_n = 1] it returns the item of score 3.5 although the third
    item has score 7. *)
Lemma top_n_order_counterexample :
  scored_candidates (H := sample_lib) nan_stores None = Ok nan_pool
  ∧ (∀ out, out ≡ₚ nan_pool → ¬ StronglySorted score_ge out)
  ∧ recommend_top_media (H := sample_lib) nan_stores 3 None = Ok nan_pool
  ∧ recommend_top_media (H := sample_lib) nan_stores 1 None
      = Ok [(n21, 3.5%float)]
  ∧ (n23, 7%float) ∈ nan_pool
  ∧ ((n21, 3.5%float).2 <? (n23, 7%float).2)%float = true.
Proof.
  split; [vm_compute; reflexivity|].
  split.
  { intros out Hp Hs. apply sorted_not_nan in Hs.
    - rewrite Hp in Hs. apply Forall_cons in Hs as [_ Hs].
      apply Forall_cons in Hs as [Hn _]. by vm_compute in Hn.
    - rewrite (Permutation_length Hp). simpl. lia. }
  split; [vm_compute; reflexivity|].
  split; [vm_compute; reflexivity|].
  split; [do 3 constructor|vm_compute; reflexivity].
Qed.

(** * Further properties *)

(** ** The engagement sets *)

Lemma elem_of_planned db i :
  i ∈ get_user_planned_media_ids db ↔
  ∃ e, e ∈ media_list_entries db ∧ mle_media_id e = i
       ∧ mle_status e = Some "PLANNING".
Proof.
  unfold get_user_planned_media_ids.
  rewrite elem_of_list_to_set, list_elem_of_fmap. split.
  - intros (e&->&[Hs He]%list_elem_of_filter). exists e.
    repeat split; try done. unfold status_eq in Hs.
    destruct (mle_status e) as [st|]; [|done].
    by apply bool_decide_unpack in Hs as ->.
  - intros (e&He&<-&Hs). exists e. split; [done|].
    apply list_elem_of_filter. split; [|done].
    unfold status_eq. rewrite Hs. by apply bool_decide_pack.
Qed.

Lemma elem_of_watched db i :
  i ∈ get_user_watched_media_ids db ↔
  ∃ e st, e ∈ media_list_entries db ∧ mle_media_id e = i
          ∧ mle_status e = Some st ∧ st ≠ "PLANNING".
Proof.
  unfold get_user_watched_media_ids.
  rewrite elem_of_list_to_set, list_elem_of_fmap. split.
  - intros (e&->&[Hs He]%list_elem_of_filter). unfold status_ne in Hs.
    destruct (mle_status e) as [st|] eqn:Hst; [|done].
    exists e, st. repeat split; try done. by apply bool_decide_unpack in Hs.
  - intros (e&st&He&<-&Hs&Hne). exists e. split; [done|].
    apply list_elem_of_filter. split; [|done].
    unfold status_ne. rewrite Hs. by apply bool_decide_pack.
Qed.

(** X1. A media id is both planned and watched exactly when the history
    holds a row of that id with status PLANNING and another row of that id
    with a status that is not NULL and not PLANNING. *)
Theorem planned_and_watched db i :
  i ∈ get_user_planned_media_ids db ∧ i ∈ get_user_watched_media_ids db ↔
  ∃ e1 e2 st,
    e1 ∈ media_list_entries db ∧ e2 ∈ media_list_entries db ∧
    mle_media_id e1 = i ∧ mle_media_id e2 = i ∧
    mle_status e1 = Some "PLANNING" ∧
    mle_status e2 = Some st ∧ st ≠ "PLANNING".
Proof.
  rewrite elem_of_planned, elem_of_watched. split.
  - intros [(e1&?&?&?) (e2&st&?&?&?&?)]. by exists e1, e2, st.
  - intros (e1&e2&st&?&?&?&?&?&?&?). split; [by exists e1|by exists e2, st].
Qed.

Lemma NoDup_fmap_same {A B} (f : A → B) (l : list A) x y :
  NoDup (f <$> l) → x ∈ l → y ∈ l → f x = f y → x = y.
Proof.
  induction l as [|a l IH]; simpl; [by intros _ ?%elem_of_nil|].
  intros [Hnotin Hnd]%NoDup_cons [->|Hx]%elem_of_cons [->|Hy]%elem_of_cons Hf;
    [done| | |by apply IH].
  - destruct Hnotin. rewrite Hf. by apply list_elem_of_fmap_2.
  - destruct Hnotin. rewrite <- Hf. by apply list_elem_of_fmap_2.
Qed.

(** X2. When no media id has two rows in the history, the planned set and
    the watched set are disjoint, and the id of a row is planned exactly
    when its status is PLANNING, watched exactly when its status is another
    non-NULL status: the id of a row whose status is NULL is in neither
    set. *)
Theorem engagement_sets_partition db :
  NoDup (mle_media_id <$> media_list_entries db) →
  get_user_planned_media_ids db ## get_user_watched_media_ids db ∧
  ∀ e, e ∈ media_list_entries db →
    (mle_media_id e ∈ get_user_planned_media_ids db
       ↔ mle_status e = Some "PLANNING") ∧
    (mle_media_id e ∈ get_user_watched_media_ids db
       ↔ ∃ st, mle_status e = Some st ∧ st ≠ "PLANNING").
Proof.
  intros Hnd. split.
  - intros i (e1&H1&Hi1&Hs1)%elem_of_planned
             (e2&st&H2&Hi2&Hs2&Hne)%elem_of_watched.
    assert (e1 = e2) as -> by (eapply NoDup_fmap_same; try done; congruence).
    congruence.
  - intros e He. rewrite elem_of_planned, elem_of_watched. split; split.
    + intros (e'&He'&Hi&Hs).
      by rewrite <- (NoDup_fmap_same _ _ _ _ Hnd He' He Hi).
    + intros Hs. by exists e.
    + intros (e'&st&He'&Hi&Hs&Hne).
      rewrite <- (NoDup_fmap_same _ _ _ _ Hnd He' He Hi). by exists st.
    + intros (st&Hs&Hne). by exists e, st.
Qed.

(** ** The preference profile *)

Section profile_facts.
Context `{PyLib}.

Lemma bump_inv score (p p1 : profile) k :
  bump score p k = Ok p1 → ∃ w, p1 = <[k := w]> p.
Proof.
  unfold bump. destruct (padd _ score) as [w|]; simpl; [|done].
  intros [= <-]. by exists w.
Qed.

Lemma bump_loop_keys score (p p' : profile) ks :
  foldM (bump score) p ks = Ok p' →
  ∀ term, is_Some (p' !! term) ↔ is_Some (p !! term) ∨ term ∈ ks.
Proof.
  revert p. induction ks as [|k ks IH]; intros p; simpl.
  { intros [= <-] term. rewrite elem_of_nil. naive_solver. }
  destruct (bump score p k) as [p1|] eqn:Hb; simpl; [|done].
  apply bump_inv in Hb as [w ->].
  intros Hl term. rewrite (IH _ Hl term), elem_of_cons.
  destruct (decide (k = term)) as [->|Hne].
  - rewrite lookup_insert_eq. naive_solver.
  - rewrite lookup_insert_ne by done. naive_solver.
Qed.

Lemma preference_step_keys (p p' : profile) row :
  preference_step p row = Ok p' →
  ∀ term, is_Some (p' !! term) ↔ is_Some (p !! term) ∨ term ∈ row_terms row.
Proof.
  destruct row as [[g t] score]. unfold preference_step, row_terms. simpl.
  destruct (foldM (bump score) p (genres_or_empty g)) as [p1|] eqn:H1;
    simpl; [|done].
  intros H2 term.
  rewrite (bump_loop_keys _ _ _ _ H2 term), (bump_loop_keys _ _ _ _ H1 term).
  rewrite elem_of_app. naive_solver.
Qed.

Lemma preference_loop_keys (p p' : profile) rows :
  foldM preference_step p rows = Ok p' →
  ∀ term, is_Some (p' !! term) ↔
    is_Some (p !! term) ∨ ∃ row, row ∈ rows ∧ term ∈ row_terms row.
Proof.
  revert p. induction rows as [|row rows IH]; intros p; simpl.
  { intros [= <-] term. split; [by left|].
    intros [?|(?&?%elem_of_nil&_)]; done. }
  destruct (preference_step p row) as [p1|] eqn:Hs; simpl; [|done].
  intros Hl term.
  rewrite (IH _ Hl term), (preference_step_keys _ _ _ Hs term). split.
  - intros [[?|?]|(r&?&?)]; [by left| |].
    + right. exists row. split; [left|done].
    + right. exists r. split; [by right|done].
  - intros [?|(r&[->|?]%elem_of_cons&?)]; [by do 2 left| |].
    + by left; right.
    + right. by exists r.
Qed.

(** X3. The keys of the preference profile are exactly the genres and the
    tag names of the completed and rated rows: a term is a key if and only
    if some such row carries it. *)
Theorem profile_keys db p :
  get_user_preferences db = Ok p →
  ∀ term, is_Some (p !! term) ↔
    ∃ row, row ∈ completed_rows db ∧ term ∈ row_terms row.
Proof.
  intros Hp term.
  rewrite (preference_loop_keys _ _ _ Hp term), lookup_empty.
  split; [|by right]. intros [[? [=]]|?]; done.
Qed.

(** Integer ratings: the additions are exact and cannot raise. *)
Lemma bump_loop_int z (p : profile) ks :
  (∀ t w, p !! t = Some w → is_int w) →
  ∃ p',
    foldM (bump (PyInt z)) p ks = Ok p' ∧
    (∀ t w, p' !! t = Some w → is_int w) ∧
    ∀ t, int_value (default (PyInt 0) (p' !! t)) =
           (int_value (default (PyInt 0) (p !! t))
            + z * Z.of_nat (length (filter (λ k, k = t) ks)))%Z.
Proof.
  revert p. induction ks as [|k ks IH]; intros p Hint; simpl.
  { exists p. repeat split; try done. intros t. lia. }
  assert (∃ x, default (PyInt 0) (p !! k) = PyInt x) as [x Hx].
  { destruct (p !! k) as [w|] eqn:Hk; simpl; [by apply (Hint k)|by exists 0]. }
  assert (bump (PyInt z) p k = Ok (<[k := PyInt (x + z)]> p)) as ->
    by (unfold bump; by rewrite Hx).
  simpl.
  destruct (IH (<[k := PyInt (x + z)]> p)) as (p'&Hl&Hint'&Hv).
  { intros t w. destruct (decide (k = t)) as [->|Hne].
    - rewrite lookup_insert_eq. intros [= <-]. by eexists.
    - rewrite lookup_insert_ne by done. apply Hint. }
  exists p'. repeat split; try done.
  intros t. rewrite Hv, filter_cons.
  destruct (decide (k = t)) as [->|Hne]; simpl.
  - rewrite lookup_insert_eq, Hx. simpl. lia.
  - by rewrite lookup_insert_ne.
Qed.

Lemma preference_loop_int (p : profile) rows :
  (∀ t w, p !! t = Some w → is_int w) →
  Forall (λ row, is_int row.2) rows →
  ∃ p',
    foldM preference_step p rows = Ok p' ∧
    (∀ t w, p' !! t = Some w → is_int w) ∧
    ∀ t, int_value (default (PyInt 0) (p' !! t)) =
           (int_value (default (PyInt 0) (p !! t)) + int_total t rows)%Z.
Proof.
  intros Hint Hrows. revert p Hint.
  induction Hrows as [|row rows [z Hz] _ IH]; intros p Hint; simpl.
  { exists p. repeat split; try done. intros t. lia. }
  destruct row as [[g tg] score]. simpl in Hz. subst score.
  change (preference_step p (g, tg, PyInt z))
    with (p1 ← foldM (bump (PyInt z)) p (genres_or_empty g);
          foldM (bump (PyInt z)) p1 (tag_name <$> tags_or_empty tg)).
  destruct (bump_loop_int z p (genres_or_empty g) Hint) as (p1&H1&Hint1&Hv1).
  rewrite H1. simpl.
  destruct (bump_loop_int z p1 (tag_name <$> tags_or_empty tg) Hint1)
    as (p2&H2&Hint2&Hv2).
  rewrite H2. simpl.
  destruct (IH p2 Hint2) as (p'&Hl&Hint'&Hv).
  exists p'. repeat split; try done.
  intros t. rewrite Hv, Hv2, Hv1.
  unfold occurrences, row_terms. simpl.
  rewrite filter_app, length_app. lia.
Qed.

Lemma int_total_perm term rows rows' :
  rows ≡ₚ rows' → int_total term rows = int_total term rows'.
Proof.
  induction 1 as [|row l l' _ IH|r1 r2 l|l1 l2 l3 _ IH1 _ IH2]; simpl;
    [done|by rewrite IH|lia|congruence].
Qed.

Lemma int_profile_lookup db p :
  Forall (λ row, is_int row.2) (completed_rows db) →
  get_user_preferences db = Ok p →
  ∀ term,
    p !! term =
      if bool_decide
           (Exists (λ row, term ∈ row_terms row) (completed_rows db))
      then Some (PyInt (int_total term (completed_rows db)))
      else None.
Proof.
  intros Hrows Hp term.
  destruct (preference_loop_int ∅ (completed_rows db)) as (p'&Hl&Hint&Hv);
    [intros t w Hw; by rewrite lookup_empty in Hw|done|].
  unfold get_user_preferences in Hp. rewrite Hl in Hp. injection Hp as ->.
  specialize (Hv term). rewrite lookup_empty in Hv. simpl in Hv.
  pose proof (preference_loop_keys _ _ _ Hl term) as Hk.
  rewrite lookup_empty in Hk.
  case_bool_decide as Hex.
  - apply Exists_exists in Hex.
    destruct (proj2 Hk) as [w Hw]; [by right|].
    rewrite Hw in Hv |- *. destruct (Hint _ _ Hw) as [x ->].
    simpl in Hv. by rewrite Hv.
  - destruct (p !! term) as [w|] eqn:Hw; [|done].
    destruct (proj1 Hk) as [[? [=]]|Hr]; [by eexists|].
    destruct Hex. by apply Exists_exists.
Qed.

(** X4. With integer ratings the profile builder cannot raise, and the
    weight of a term is the integer sum, over the completed and rated rows,
    of the rating times the number of occurrences of the term among the
    genres and the tag names of the row.  The profile is then the same for
    every order of the rows. *)
Theorem integer_profile db :
  Forall (λ row, is_int row.2) (completed_rows db) →
  ∃ p,
    get_user_preferences db = Ok p ∧
    (∀ term,
       p !! term =
         if bool_decide
              (Exists (λ row, term ∈ row_terms row) (completed_rows db))
         then Some (PyInt (int_total term (completed_rows db)))
         else None) ∧
    ∀ db', completed_rows db' ≡ₚ completed_rows db →
           get_user_preferences db' = Ok p.
Proof.
  intros Hrows.
  destruct (preference_loop_int ∅ (completed_rows db)) as (p&Hl&_&_);
    [intros t w Hw; by rewrite lookup_empty in Hw|done|].
  exists p. split; [done|]. split; [by apply int_profile_lookup|].
  intros db' Hperm.
  assert (Forall (λ row, is_int row.2) (completed_rows db')) as Hrows'
    by (by rewrite Hperm).
  destruct (preference_loop_int ∅ (completed_rows db')) as (p'&Hl'&_&_);
    [intros t w Hw; by rewrite lookup_empty in Hw|done|].
  unfold get_user_preferences. rewrite Hl'. f_equal.
  apply map_eq. intros term.
  rewrite (int_profile_lookup db' p' Hrows' Hl' term).
  rewrite (int_profile_lookup db p Hrows Hl term).
  rewrite (int_total_perm term _ _ Hperm).
  erewrite bool_decide_ext; [done|]. by rewrite Hperm.
Qed.

(** X5. An entry that is not COMPLETED, or has no score, or whose media id
    has no row in the [media] table, does not change the profile, wherever
    it stands in the history. *)
Theorem profile_ignores_entry db es1 e es2 :
  qualifies e = false ∨ mle_media_id e ∉ m_id <$> media_table db →
  get_user_preferences (with_entries db (es1 ++ e :: es2))
    = get_user_preferences (with_entries db (es1 ++ es2)).
Proof.
  intros He. unfold get_user_preferences. f_equal.
  unfold completed_rows, with_entries. simpl.
  rewrite !bind_app, bind_cons.
  assert (match mle_score e with
          | Some score =>
              if status_eq "COMPLETED" e then
                m ← media_table db;
                if bool_decide (m_id m = mle_media_id e)
                then [(m_genres m, m_tags m, score)] else []
              else []
          | None => []
          end = []) as ->; [|done].
  destruct (mle_score e) as [score|] eqn:Hs; [|done].
  destruct (status_eq "COMPLETED" e) eqn:Hst; [|done].
  destruct He as [Hq|Hm].
  { unfold qualifies in Hq. rewrite Hst, Hs in Hq. by simpl in Hq. }
  induction (media_table db) as [|m ms IH]; [done|].
  rewrite fmap_cons, not_elem_of_cons in Hm. destruct Hm as [Hne Hm].
  rewrite bind_cons, bool_decide_false by done. simpl. by apply IH.
Qed.
End profile_facts.

(** ** The catalog reader *)

Section catalog_facts.
Context `{PyLib}.

Lemma media_of_row_Ok row :
  ¬ malformed row → media_of_row row = Ok (decoded_media row).
Proof.
  intros Hok. unfold media_of_row, decoded_media, loads_or_raise,
    genres_or_empty, tags_or_empty.
  destruct (truthy_str (g_genres row)) as [sg|] eqn:Hg.
  - destruct (loads_genres sg) as [gs|] eqn:Hlg.
    + destruct (truthy_str (g_tags row)) as [st|] eqn:Ht; [|done].
      destruct (loads_tags st) as [ts|] eqn:Hlt; [done|].
      destruct Hok. right. by exists st.
    + destruct Hok. left. by exists sg.
  - destruct (truthy_str (g_tags row)) as [st|] eqn:Ht; [|done].
    destruct (loads_tags st) as [ts|] eqn:Hlt; [done|].
    destruct Hok. right. by exists st.
Qed.

Lemma media_of_row_inv row m :
  media_of_row row = Ok m → ¬ malformed row ∧ m = decoded_media row.
Proof.
  intros Hm. assert (¬ malformed row) as Hok.
  { intros Hbad. by rewrite media_of_row_malformed in Hm. }
  split; [done|]. rewrite media_of_row_Ok in Hm by done. by injection Hm.
Qed.

Lemma mapM_media_of_row_inv db ms :
  mapM media_of_row db = Ok ms →
  Forall (λ row, ¬ malformed row) db ∧ ms = decoded_media <$> db.
Proof.
  revert ms. induction db as [|row db IH]; intros ms.
  { intros [= <-]. by split. }
  rewrite mapM_res_cons.
  destruct (media_of_row row) as [m|] eqn:Hm; simpl; [|done].
  destruct (mapM media_of_row db) as [ms'|]; simpl; [|done].
  intros [= <-]. apply media_of_row_inv in Hm as [Hok ->].
  destruct (IH ms' eq_refl) as [Hall ->]. split; [by constructor|done].
Qed.

(** X6. The catalog reader succeeds exactly when no row has a genres or
    tags text that [json.loads] rejects; it then returns one media item for
    each row, in the order of the rows, with the id and the titles of the
    row, its decoded genres and tags (the empty list for a NULL or empty
    text), and neither average score nor popularity. *)
Theorem get_global_media_succeeds db ms :
  get_global_media db = Ok ms ↔
  Forall (λ row, ¬ malformed row) db ∧ ms = decoded_media <$> db.
Proof.
  unfold get_global_media. rewrite get_global_media_loop. split.
  - destruct (mapM media_of_row db) as [l|] eqn:Hl; simpl; [|done].
    intros [= <-]. by apply mapM_media_of_row_inv.
  - intros [Hall ->].
    assert (mapM media_of_row db = Ok (decoded_media <$> db)) as ->; [|done].
    induction Hall as [|row db Hok _ IH]; [done|].
    rewrite mapM_res_cons, media_of_row_Ok, IH; done.
Qed.
End catalog_facts.

(** ** The similarity *)

Lemma foldM_filter_skip {A B} (f : B → A → res B) (P : A → Prop)
    `{!∀ a, Decision (P a)} b l :
  (∀ b a, ¬ P a → f b a = Ok b) →
  foldM f b (filter P l) = foldM f b l.
Proof.
  intros Hskip. revert b. induction l as [|a l IH]; intros b; [done|].
  rewrite filter_cons. destruct (decide (P a)) as [Ha|Ha]; simpl.
  - destruct (f b a); simpl; [apply IH|done].
  - rewrite Hskip by done. simpl. apply IH.
Qed.

Lemma foldM_ext {A B} (f g : B → A → res B) b l :
  (∀ b a, f b a = g b a) → foldM f b l = foldM g b l.
Proof.
  intros Hfg. revert b. induction l as [|a l IH]; intros b; simpl; [done|].
  rewrite Hfg. destruct (g b a); simpl; [apply IH|done].
Qed.

Lemma add_genre_empty score g : add_genre ∅ score g = Ok score.
Proof. unfold add_genre. by rewrite lookup_empty. Qed.

Lemma add_tag_empty score t : add_tag ∅ score t = Ok score.
Proof. unfold add_tag. by rewrite lookup_empty. Qed.

(** X7. The genres and the tags of an item that are not keys of the
    profile do not change its similarity: removing them gives the same
    result.  With an empty profile every item scores as if it had no genre
    and no tag. *)
Theorem similarity_ignores_unknown_terms (m : media) (p : profile) :
  compute_similarity
    (with_terms m (filter (λ g, is_Some (p !! g)) (genres m))
                  (filter (λ t, is_Some (p !! tag_name t)) (tags m))) p
    = compute_similarity m p
  ∧ compute_similarity m ∅ = compute_similarity (with_terms m [] []) ∅.
Proof.
  assert (∀ gs ts, compute_similarity (with_terms m gs ts) p =
            score ← foldM (add_genre p) (PyInt 0) gs;
            score ← foldM (add_tag p) score ts;
            x ← fmul (or_zero (average_score m)) 0.1;
            score ← fadd score x;
            y ← fdiv (or_zero (popularity m)) 1000000;
            Ok (score + y)%float) as Hw by done.
  split.
  - rewrite Hw. unfold compute_similarity.
    rewrite (foldM_filter_skip (add_genre p)).
    2:{ intros b g Hg. unfold add_genre.
        destruct (p !! g); [by destruct Hg|done]. }
    destruct (foldM (add_genre p) (PyInt 0) (genres m)) as [s1|]; simpl;
      [|done].
    rewrite (foldM_filter_skip (add_tag p)); [done|].
    intros b t Ht. unfold add_tag.
    destruct (p !! tag_name t); [by destruct Ht|done].
  - unfold compute_similarity. simpl.
    assert (∀ s gs, foldM (add_genre ∅) s gs = Ok s) as ->.
    { intros s gs. induction gs as [|g gs IH]; [done|].
      by rewrite foldM_cons, add_genre_empty. }
    simpl.
    assert (∀ s ts, foldM (add_tag ∅) s ts = Ok s) as ->; [|done].
    intros s ts. induction ts as [|t ts IH]; [done|].
    by rewrite foldM_cons, add_tag_empty.
Qed.

(** ** The engine *)

Section engine_facts.
Context `{PyLib}.

Lemma get_global_media_inv db ms :
  get_global_media db = Ok ms →
  Forall (λ row, ¬ malformed row) db ∧ ms = decoded_media <$> db.
Proof.
  unfold get_global_media. rewrite get_global_media_loop.
  destruct (mapM media_of_row db) as [l|] eqn:Hl; simpl; [|done].
  intros [= <-]. by apply mapM_media_of_row_inv.
Qed.

Lemma get_global_media_raises db e :
  get_global_media db = Raise e → e = JSONDecodeError.
Proof.
  unfold get_global_media. rewrite get_global_media_loop.
  destruct (mapM media_of_row db) as [l|e'] eqn:Hl; simpl; [done|].
  intros [= <-]. by eapply mapM_media_of_row_raises.
Qed.

Lemma similarity_cold m :
  average_score m = None → popularity m = None →
  compute_similarity m ∅ = Ok 0%float.
Proof.
  intros Ha Hp. unfold compute_similarity. rewrite Ha, Hp.
  assert (∀ s gs, foldM (add_genre ∅) s gs = Ok s) as ->.
  { intros s gs. induction gs as [|g gs IH]; [done|].
    by rewrite foldM_cons, add_genre_empty. }
  simpl.
  assert (∀ s ts, foldM (add_tag ∅) s ts = Ok s) as ->; [|done].
  intros s ts. induction ts as [|t ts IH]; [done|].
  by rewrite foldM_cons, add_tag_empty.
Qed.

Lemma boosts_of_zero planned dg m :
  planned_boost planned m (genre_boost dg m 0) = 0%float.
Proof.
  unfold planned_boost, genre_boost.
  destruct (truthy_str dg); repeat case_bool_decide; reflexivity.
Qed.

Lemma sort_desc_zero l :
  Forall (λ c : candidate, c.2 = 0%float) l → sort_desc l = l.
Proof.
  induction 1 as [|x l Hx Hl IH]; [done|].
  simpl. fold (sort_desc l). rewrite IH.
  destruct Hl as [|y l Hy _]; [done|].
  simpl. by rewrite Hx, Hy.
Qed.

(** X8. When the history holds no completed and rated show, every
    candidate scores 0: the engine returns, in catalog order and each with
    score 0, the first [top_n] catalog items that are not watched and that
    match the desired genre. *)
Theorem cold_start s top_n dg ms :
  completed_rows (personal s) = [] →
  get_global_media (global s) = Ok ms →
  recommend_top_media s top_n dg =
    Ok (slice_to top_n
          ((λ m, (m, 0%float)) <$>
             filter (survives (get_user_watched_media_ids (personal s)) dg)
                    ms)).
Proof.
  intros Hrows Hms.
  unfold recommend_top_media, scored_candidates, get_user_preferences.
  rewrite Hrows, Hms. simpl. rewrite recommend_loop.
  apply get_global_media_inv in Hms as [_ ->].
  set (planned := get_user_planned_media_ids (personal s)).
  set (l := filter _ _).
  assert (Forall (λ m, average_score m = None ∧ popularity m = None) l)
    as Hl.
  { apply Forall_forall. intros m [_ Hm]%list_elem_of_filter.
    by apply list_elem_of_fmap in Hm as (row&->&_). }
  assert (mapM (scored ∅ planned dg) l = Ok ((λ m, (m, 0%float)) <$> l))
    as ->.
  { induction Hl as [|m l [Ha Hp] _ IH]; [done|].
    rewrite mapM_res_cons, IH. unfold scored.
    rewrite similarity_cold by done. simpl. by rewrite boosts_of_zero. }
  simpl. rewrite sort_desc_zero; [done|].
  apply Forall_forall. by intros c (m&->&_)%list_elem_of_fmap.
Qed.

Lemma genre_filtered_out_key dg m :
  genre_filtered_out dg m =
    match genre_key dg with
    | Some k => bool_decide (k ∉ genres_lower m)
                && bool_decide (k ∉ tags_lower m)
    | None => false
    end.
Proof. unfold genre_filtered_out, genre_key. by destruct (truthy_str dg). Qed.

Lemma genre_boost_key dg m sim :
  genre_boost dg m sim =
    match genre_key dg with
    | Some k =>
        if bool_decide (k ∈ genres_lower m) then (sim * 1.2)%float
        else if bool_decide (k ∈ tags_lower m) then (sim * 1.1)%float
        else sim
    | None => sim
    end.
Proof. unfold genre_boost, genre_key. by destruct (truthy_str dg). Qed.

(** X9. The engine reads the desired genre through its lower-cased form
    only, and an empty string as no genre: two requests whose desired
    genres are lower-cased to the same string (or are both [None] or empty)
    return the same result. *)
Theorem desired_genre_case_insensitive s top_n dg1 dg2 :
  genre_key dg1 = genre_key dg2 →
  recommend_top_media s top_n dg1 = recommend_top_media s top_n dg2.
Proof.
  intros Hk. unfold recommend_top_media, scored_candidates.
  destruct (get_user_preferences (personal s)) as [p|]; simpl; [|done].
  destruct (get_global_media (global s)) as [ms|]; simpl; [|done].
  erewrite foldM_ext; [done|].
  intros recs m. unfold recommend_step.
  rewrite (genre_filtered_out_key dg1), Hk, <- genre_filtered_out_key.
  destruct (bool_decide _); [done|].
  destruct (genre_filtered_out dg2 m); [done|].
  destruct (compute_similarity m p) as [sim|]; simpl; [|done].
  by rewrite !genre_boost_key, Hk.
Qed.

(** X10. While the catalog holds a row whose genres or tags text is
    malformed, every request fails with the decoding error, whatever
    [top_n] and the desired genre are (the history being one from which
    the profile is built). *)
Theorem malformed_row_fails_every_request s p row top_n dg :
  get_user_preferences (personal s) = Ok p →
  row ∈ global s → malformed row →
  recommend_top_media s top_n dg = Raise JSONDecodeError.
Proof.
  intros Hp Hin Hbad. unfold recommend_top_media, scored_candidates.
  rewrite Hp. simpl.
  destruct (get_global_media (global s)) as [ms|e] eqn:Hg; simpl.
  - apply get_global_media_inv in Hg as [Hall _].
    by eapply Forall_forall in Hall.
  - by rewrite (get_global_media_raises _ _ Hg).
Qed.

(** X11. Asking for fewer recommendations returns the first ones of the
    longer answer: for [0 ≤ n ≤ n'], the result for [n] is the first [n]
    pairs of the result for [n']. *)
Theorem smaller_request_is_prefix s n n' dg out' :
  (0 ≤ n)%Z → (n ≤ n')%Z →
  recommend_top_media s n' dg = Ok out' →
  recommend_top_media s n dg = Ok (take (Z.to_nat n) out').
Proof.
  intros Hn Hnn'. unfold recommend_top_media.
  destruct (scored_candidates s dg) as [recs|]; simpl; [|done].
  intros [= <-]. unfold slice_to.
  destruct (Z.leb_spec 0 n); [|lia]. destruct (Z.leb_spec 0 n'); [|lia].
  rewrite take_take. do 2 f_equal. lia.
Qed.

(** X12. A negative [top_n] is not rejected: the engine then returns the
    whole ranking without its last [- top_n] pairs (nothing when there are
    no more candidates than that).  The whole ranking is what a request for
    more pairs than there are candidates returns. *)
Theorem negative_top_n_drops_last s top_n n dg all :
  (top_n < 0)%Z →
  recommend_top_media s n dg = Ok all → (Z.of_nat (length all) < n)%Z →
  recommend_top_media s top_n dg
    = Ok (take (length all - Z.to_nat (- top_n)) all).
Proof.
  intros Hneg. unfold recommend_top_media.
  destruct (scored_candidates s dg) as [recs|]; simpl; [|done].
  unfold slice_to. intros Hall Hlen.
  destruct (Z.leb_spec 0 n); [|lia].
  destruct (Z.leb_spec 0 top_n); [lia|].
  injection Hall as Hall.
  assert (all = sort_desc recs) as ->; [|done].
  rewrite <- Hall. apply take_ge.
  rewrite <- Hall, length_take in Hlen. lia.
Qed.

(** X13. Whatever the scores are, a request for at least as many
    recommendations as there are candidates returns every candidate
    exactly once: the result is a permutation of the candidates. *)
Theorem full_ranking_is_permutation s top_n dg recs :
  scored_candidates s dg = Ok recs →
  (Z.of_nat (length recs) ≤ top_n)%Z →
  ∃ out, recommend_top_media s top_n dg = Ok out ∧ out ≡ₚ recs.
Proof.
  intros Hr Hn. exists (sort_desc recs). split; [|apply sort_desc_perm].
  unfold recommend_top_media. rewrite Hr. simpl. f_equal.
  unfold slice_to. destruct (Z.leb_spec 0 top_n); [|lia].
  apply take_ge. rewrite (Permutation_length (sort_desc_perm recs)). lia.
Qed.
Lemma pool_items s dg recs :
  scored_candidates s dg = Ok recs →
  recs.*1 `sublist_of` (decoded_media <$> global s).
Proof.
  intros (pref&ms&_&Hms&Hl)%scored_candidates_inv.
  apply get_global_media_inv in Hms as [_ ->].
  apply mapM_res_Forall2 in Hl.
  assert (recs.*1 = filter (survives (get_user_watched_media_ids (personal s))
                                     dg) (decoded_media <$> global s))
    as ->; [|apply sublist_filter].
  induction Hl as [|m c l k Hc _ IH]; [done|].
  apply scored_inv in Hc as [<- _]. by rewrite fmap_cons, IH.
Qed.

Lemma compute_similarity_overflow m p :
  overflow_only (compute_similarity m p).
Proof.
  unfold compute_similarity.
  apply overflow_only_bind;
    [apply overflow_only_foldM; intros b g; unfold add_genre;
     destruct (p !! g); solve_overflow|intros s1].
  apply overflow_only_bind;
    [apply overflow_only_foldM; intros b t; unfold add_tag;
     destruct (p !! tag_name t); solve_overflow|intros s2].
  solve_overflow.
Qed.

Lemma mapM_media_of_row_malformed db e :
  mapM media_of_row db = Raise e → Exists malformed db.
Proof.
  induction db as [|row db IH]; [done|]. rewrite mapM_res_cons.
  destruct (media_of_row row) as [m|e'] eqn:Hr; simpl.
  - destruct (mapM media_of_row db); simpl; [done|].
    intros [= <-]. right. by apply IH.
  - intros _. left. unfold media_of_row, loads_or_raise in Hr.
    destruct (truthy_str (g_genres row)) as [sg|] eqn:Hg.
    + destruct (loads_genres sg) eqn:Hlg; [|left; by exists sg].
      simpl in Hr. destruct (truthy_str (g_tags row)) as [st|] eqn:Ht;
        [|done].
      destruct (loads_tags st) eqn:Hlt; [done|]. right. by exists st.
    + simpl in Hr. destruct (truthy_str (g_tags row)) as [st|] eqn:Ht;
        [|done].
      destruct (loads_tags st) eqn:Hlt; [done|]. right. by exists st.
Qed.

(** X14. The decoding error comes from the catalog only: when a request
    raises it, the profile was built, and some catalog row has a genres or
    tags text that [json.loads] rejects.  Malformed text in the history
    never makes a request fail in this way. *)
Theorem decoding_error_comes_from_catalog s top_n dg :
  recommend_top_media s top_n dg = Raise JSONDecodeError →
  (∃ p, get_user_preferences (personal s) = Ok p)
  ∧ Exists malformed (global s).
Proof.
  unfold recommend_top_media, scored_candidates.
  destruct (get_user_preferences (personal s)) as [p|e1] eqn:Hp; simpl.
  2:{ intros [= ->]. by apply get_user_preferences_overflow in Hp. }
  destruct (get_global_media (global s)) as [ms|e2] eqn:Hg; simpl.
  2:{ intros _. split; [by exists p|].
      unfold get_global_media in Hg. rewrite get_global_media_loop in Hg.
      destruct (mapM media_of_row (global s)) as [l|e3] eqn:Hl;
        simpl in Hg; [done|].
      by eapply mapM_media_of_row_malformed. }
  destruct (foldM _ _ ms) as [recs|e3] eqn:Hf; simpl; [done|].
  intros [= ->]. exfalso. revert Hf.
  assert (overflow_only
            (foldM (recommend_step p
                      (get_user_planned_media_ids (personal s))
                      (get_user_watched_media_ids (personal s)) dg) [] ms))
    as Hov.
  { apply overflow_only_foldM. intros acc m. unfold recommend_step.
    destruct (bool_decide _); [apply overflow_only_Ok|].
    destruct (genre_filtered_out dg m); [apply overflow_only_Ok|].
    apply overflow_only_bind; [apply compute_similarity_overflow|].
    intros sim. apply overflow_only_Ok. }
  intros Hf. by apply Hov in Hf.
Qed.

(** X15. When the ids of the catalog rows are distinct, no item is
    recommended twice: the ids of the returned items are distinct. *)
Theorem no_item_recommended_twice s top_n dg out :
  NoDup (g_id <$> global s) →
  recommend_top_media s top_n dg = Ok out →
  NoDup ((media_id ∘ fst) <$> out).
Proof.
  intros Hnd (recs&Hr&->&_)%recommend_top_media_inv.
  destruct (slice_to_take top_n (sort_desc recs)) as (k&->&_).
  apply sublist_NoDup with ((media_id ∘ fst) <$> sort_desc recs).
  2:{ apply fmap_sublist, sublist_take. }
  rewrite (sort_desc_perm recs), list_fmap_compose.
  apply sublist_NoDup with (media_id <$> (decoded_media <$> global s)).
  - by rewrite <- list_fmap_compose.
  - apply fmap_sublist. by eapply pool_items.
Qed.
End engine_facts.

(** ** main *)

Section main_facts.
Context `{PyLib} `{ConsoleLib}.

End main_facts.

(** ** The re-ranker *)

Section reranker_more.
Context `{ReplyLib}.

Lemma parse_candidate_ids_None text :
  parse_candidate_ids text = None → parse_failure text.
Proof.
  unfold parse_candidate_ids.
  destruct (loads text) as [parsed|] eqn:Hl; simpl; [|by constructor 1].
  destruct (py_get parsed _ _) as [v|] eqn:Hg; simpl;
    [|by econstructor 2].
  destruct (py_iter v) as [cids|] eqn:Hi; simpl; [|by econstructor 3].
  intros (cid&Hin&Hc)%mapM_None_1%Exists_exists. by econstructor 4.
Qed.

(** X17. Once a reply is obtained, the result is one of two lists: the
    candidate ids in input order, when parsing fails; otherwise the
    entries of the value under candidate_ids (the empty list when the key
    is missing), each converted by [int], in the order and number of the
    reply. *)
Theorem reranker_result generate query candidates text :
  generate (build_prompt query candidates) = Ok text →
  (parse_failure text
   ∧ rerank_candidates_with_gemini generate query candidates
       = Ok (c_id <$> candidates))
  ∨ (∃ kvs cids ids,
       loads text = Some (JObj kvs)
       ∧ py_iter (default (JArr [])
                    (list_to_map (M := gmap string json) kvs
                       !! "candidate_ids")) = Some cids
       ∧ Forall2 (λ cid z, py_int cid = Some z) cids ids
       ∧ rerank_candidates_with_gemini generate query candidates = Ok ids).
Proof.
  intros Hg. unfold rerank_candidates_with_gemini. rewrite Hg. simpl.
  destruct (parse_candidate_ids text) as [ids|] eqn:Hp.
  - right. unfold parse_candidate_ids in Hp.
    destruct (loads text) as [parsed|]; simpl in Hp; [|done].
    destruct parsed as [| | | | |kvs]; simpl in Hp; try done.
    destruct (py_iter _) as [cids|] eqn:Hi; simpl in Hp; [|done].
    exists kvs, cids, ids. by apply mapM_Some in Hp.
  - left. split; [by apply parse_candidate_ids_None|done].
Qed.

(** X18. The ids of the reply are not checked against the candidates: a
    reply whose value under candidate_ids is an array of integers is
    returned as it is, whatever the candidates are. *)
Theorem reranker_returns_reply_ids generate query candidates text kvs ids :
  generate (build_prompt query candidates) = Ok text →
  loads text = Some (JObj kvs) →
  list_to_map (M := gmap string json) kvs !! "candidate_ids"
    = Some (JArr ((λ z, JNum (PyInt z)) <$> ids)) →
  rerank_candidates_with_gemini generate query candidates = Ok ids.
Proof.
  intros Hg Hl Hk. unfold rerank_candidates_with_gemini, parse_candidate_ids.
  rewrite Hg. simpl. rewrite Hl. simpl. rewrite Hk. simpl.
  assert (mapM py_int ((λ z, JNum (PyInt z)) <$> ids) = Some ids) as ->;
    [|done].
  apply mapM_Some, Forall2_fmap_l, Forall2_same_length_lookup.
  split; [done|]. intros i x y Hx Hy. simpl. congruence.
Qed.

End reranker_more.

(** ** Instances of the further properties *)

Lemma engagement_sets_partition_witness :
  NoDup (mle_media_id <$> media_list_entries sample_personal)
  ∧ get_user_planned_media_ids sample_personal
      ## get_user_watched_media_ids sample_personal
  ∧ ∀ e, e ∈ media_list_entries sample_personal →
      (mle_media_id e ∈ get_user_planned_media_ids sample_personal
         ↔ mle_status e = Some "PLANNING") ∧
      (mle_media_id e ∈ get_user_watched_media_ids sample_personal
         ↔ ∃ st, mle_status e = Some st ∧ st ≠ "PLANNING").
Proof.
  assert (NoDup (mle_media_id <$> media_list_entries sample_personal))
    as Hnd by (apply (bool_decide_unpack _); vm_compute; exact I).
  split; [exact Hnd|].
  exact (engagement_sets_partition sample_personal Hnd).
Defined.

Lemma profile_keys_witness :
  get_user_preferences (H := sample_lib) sample_personal = Ok sample_profile
  ∧ ∀ term, is_Some (sample_profile !! term) ↔
      ∃ row, row ∈ completed_rows sample_personal
             ∧ term ∈ row_terms (H := sample_lib) row.
Proof.
  assert (get_user_preferences (H := sample_lib) sample_personal
            = Ok sample_profile) as Hp by (vm_compute; reflexivity).
  split; [exact Hp|].
  exact (profile_keys (H := sample_lib) sample_personal sample_profile Hp).
Defined.

Lemma integer_profile_witness :
  Forall (λ row, is_int row.2) (completed_rows sample_personal)
  ∧ ∃ p,
      get_user_preferences (H := sample_lib) sample_personal = Ok p ∧
      (∀ term,
         p !! term =
           if bool_decide
                (Exists (λ row, term ∈ row_terms (H := sample_lib) row)
                        (completed_rows sample_personal))
           then Some (PyInt (int_total (H := sample_lib) term
                               (completed_rows sample_personal)))
           else None) ∧
      ∀ db', completed_rows db' ≡ₚ completed_rows sample_personal →
             get_user_preferences (H := sample_lib) db' = Ok p.
Proof.
  assert (Forall (λ row, is_int row.2) (completed_rows sample_personal))
    as Hint.
  { apply Forall_forall. intros row Hrow.
    assert (row.2 = PyInt 7 ∨ row.2 = PyInt 9) as [->| ->];
      [|by eexists..].
    vm_compute in Hrow.
    apply elem_of_cons in Hrow as [->|Hrow]; [by left|].
    apply elem_of_cons in Hrow as [->|Hrow]; [by right|].
    by apply elem_of_nil in Hrow. }
  split; [exact Hint|].
  exact (integer_profile (H := sample_lib) sample_personal Hint).
Defined.

Lemma profile_ignores_entry_witness :
  (qualifies (ListEntry 3 (Some "PLANNING") None) = false
   ∨ mle_media_id (ListEntry 3 (Some "PLANNING") None)
       ∉ m_id <$> media_table sample_personal)
  ∧ get_user_preferences (H := sample_lib)
      (with_entries sample_personal
         ([ ListEntry 1 (Some "COMPLETED") (Some (PyInt 7));
            ListEntry 2 (Some "COMPLETED") (Some (PyInt 9)) ]
          ++ ListEntry 3 (Some "PLANNING") None
          :: [ ListEntry 4 (Some "CURRENT") None;
               ListEntry 5 (Some "COMPLETED") None ]))
    = get_user_preferences (H := sample_lib)
        (with_entries sample_personal
           ([ ListEntry 1 (Some "COMPLETED") (Some (PyInt 7));
              ListEntry 2 (Some "COMPLETED") (Some (PyInt 9)) ]
            ++ [ ListEntry 4 (Some "CURRENT") None;
                 ListEntry 5 (Some "COMPLETED") None ])).
Proof.
  assert (qualifies (ListEntry 3 (Some "PLANNING") None) = false
          ∨ mle_media_id (ListEntry 3 (Some "PLANNING") None)
              ∉ m_id <$> media_table sample_personal) as Hq
    by (left; reflexivity).
  split; [exact Hq|].
  exact (profile_ignores_entry (H := sample_lib) sample_personal _ _ _ Hq).
Defined.

Lemma cold_start_witness :
  completed_rows (personal cold_stores) = []
  ∧ get_global_media (H := sample_lib) (global cold_stores)
      = Ok sample_catalog
  ∧ recommend_top_media (H := sample_lib) cold_stores 3 None
      = Ok (slice_to 3
              ((λ m, (m, 0%float)) <$>
                 filter (survives (H := sample_lib)
                           (get_user_watched_media_ids (personal cold_stores))
                           None)
                        sample_catalog))
  ∧ slice_to 3
      ((λ m, (m, 0%float)) <$>
         filter (survives (H := sample_lib)
                   (get_user_watched_media_ids (personal cold_stores)) None)
                sample_catalog)
    = take 3 cold_pool.
Proof.
  assert (completed_rows (personal cold_stores) = []) as Hrows
    by reflexivity.
  assert (get_global_media (H := sample_lib) (global cold_stores)
            = Ok sample_catalog) as Hms by (vm_compute; reflexivity).
  split; [exact Hrows|]. split; [exact Hms|].
  split; [|vm_compute; reflexivity].
  exact (cold_start (H := sample_lib) cold_stores 3 None sample_catalog
           Hrows Hms).
Defined.

Lemma desired_genre_case_insensitive_witness :
  genre_key (H := sample_lib) (Some "Comedy")
    = genre_key (H := sample_lib) (Some "COMEDY")
  ∧ recommend_top_media (H := sample_lib) sample_stores 10 (Some "Comedy")
    = recommend_top_media (H := sample_lib) sample_stores 10 (Some "COMEDY").
Proof.
  assert (genre_key (H := sample_lib) (Some "Comedy")
            = genre_key (H := sample_lib) (Some "COMEDY")) as Hk
    by reflexivity.
  split; [exact Hk|].
  exact (desired_genre_case_insensitive (H := sample_lib)
           sample_stores 10 (Some "Comedy") (Some "COMEDY") Hk).
Defined.

Lemma malformed_row_fails_every_request_witness :
  get_user_preferences (H := sample_lib) (personal bad_stores)
    = Ok sample_profile
  ∧ bad_row ∈ global bad_stores
  ∧ malformed (H := sample_lib) bad_row
  ∧ recommend_top_media (H := sample_lib) bad_stores 10 None
      = Raise JSONDecodeError.
Proof.
  assert (get_user_preferences (H := sample_lib) (personal bad_stores)
            = Ok sample_profile) as Hp by (vm_compute; reflexivity).
  assert (bad_row ∈ global bad_stores) as Hin
    by (apply elem_of_app; right; constructor).
  assert (malformed (H := sample_lib) bad_row) as Hbad
    by (left; exists text_malformed; split; vm_compute; reflexivity).
  split; [exact Hp|]. split; [exact Hin|]. split; [exact Hbad|].
  exact (malformed_row_fails_every_request (H := sample_lib)
           bad_stores sample_profile bad_row 10 None Hp Hin Hbad).
Defined.

Lemma smaller_request_is_prefix_witness :
  (0 ≤ 2)%Z ∧ (2 ≤ 10)%Z
  ∧ recommend_top_media (H := sample_lib) sample_stores 10 None = Ok top_any
  ∧ recommend_top_media (H := sample_lib) sample_stores 2 None
      = Ok (take (Z.to_nat 2) top_any).
Proof.
  assert (0 ≤ 2)%Z as H0 by lia.
  assert (2 ≤ 10)%Z as H1 by lia.
  assert (recommend_top_media (H := sample_lib) sample_stores 10 None
            = Ok top_any) as Hr by (vm_compute; reflexivity).
  split; [exact H0|]. split; [exact H1|]. split; [exact Hr|].
  exact (smaller_request_is_prefix (H := sample_lib)
           sample_stores 2 10 None top_any H0 H1 Hr).
Defined.

Lemma negative_top_n_drops_last_witness :
  (-1 < 0)%Z
  ∧ recommend_top_media (H := sample_lib) sample_stores 10 None = Ok top_any
  ∧ (Z.of_nat (length top_any) < 10)%Z
  ∧ recommend_top_media (H := sample_lib) sample_stores (-1) None
      = Ok (take (length top_any - Z.to_nat (- -1)) top_any).
Proof.
  assert (-1 < 0)%Z as Hneg by lia.
  assert (recommend_top_media (H := sample_lib) sample_stores 10 None
            = Ok top_any) as Hr by (vm_compute; reflexivity).
  assert (Z.of_nat (length top_any) < 10)%Z as Hlen by (simpl; lia).
  split; [exact Hneg|]. split; [exact Hr|]. split; [exact Hlen|].
  exact (negative_top_n_drops_last (H := sample_lib)
           sample_stores (-1) 10 None top_any Hneg Hr Hlen).
Defined.

Lemma full_ranking_is_permutation_witness :
  scored_candidates (H := sample_lib) nan_stores None = Ok nan_pool
  ∧ (Z.of_nat (length nan_pool) ≤ 3)%Z
  ∧ ∃ out, recommend_top_media (H := sample_lib) nan_stores 3 None = Ok out
           ∧ out ≡ₚ nan_pool.
Proof.
  assert (scored_candidates (H := sample_lib) nan_stores None = Ok nan_pool)
    as Hr by (vm_compute; reflexivity).
  assert (Z.of_nat (length nan_pool) ≤ 3)%Z as Hn by (simpl; lia).
  split; [exact Hr|]. split; [exact Hn|].
  exact (full_ranking_is_permutation (H := sample_lib)
           nan_stores 3 None nan_pool Hr Hn).
Defined.

Lemma no_item_recommended_twice_witness :
  NoDup (g_id <$> global sample_stores)
  ∧ recommend_top_media (H := sample_lib) sample_stores 10 None = Ok top_any
  ∧ NoDup ((media_id ∘ fst) <$> top_any).
Proof.
  assert (NoDup (g_id <$> global sample_stores)) as Hnd
    by (apply (bool_decide_unpack _); vm_compute; exact I).
  assert (recommend_top_media (H := sample_lib) sample_stores 10 None
            = Ok top_any) as Hr by (vm_compute; reflexivity).
  split; [exact Hnd|]. split; [exact Hr|].
  exact (no_item_recommended_twice (H := sample_lib)
           sample_stores 10 None top_any Hnd Hr).
Defined.


Lemma reranker_result_witness :
  api_reply reply_ranked (build_prompt "best anime" sample_candidates)
    = Ok reply_ranked
  ∧ ((parse_failure (H := sample_reply_lib) reply_ranked
      ∧ rerank_candidates_with_gemini (H := sample_reply_lib)
          (api_reply reply_ranked) "best anime" sample_candidates
        = Ok (c_id <$> sample_candidates))
     ∨ (∃ kvs cids ids,
          loads (ReplyLib := sample_reply_lib) reply_ranked
            = Some (JObj kvs)
          ∧ py_iter (H := sample_reply_lib)
              (default (JArr [])
                 (list_to_map (M := gmap string json) kvs
                    !! "candidate_ids")) = Some cids
          ∧ Forall2 (λ cid z, py_int (H := sample_reply_lib) cid = Some z)
                    cids ids
          ∧ rerank_candidates_with_gemini (H := sample_reply_lib)
              (api_reply reply_ranked) "best anime" sample_candidates
            = Ok ids)).
Proof.
  split; [reflexivity|].
  exact (reranker_result (H := sample_reply_lib)
           (api_reply reply_ranked) "best anime" sample_candidates
           reply_ranked eq_refl).
Defined.

(** The reply names the ids 2 and 1; no candidate was sent. *)
Lemma reranker_returns_reply_ids_witness :
  api_reply reply_ranked (build_prompt "best anime" []) = Ok reply_ranked
  ∧ loads (ReplyLib := sample_reply_lib) reply_ranked
      = Some (JObj [("candidate_ids",
                     JArr ((λ z, JNum (PyInt z)) <$> [2; 1]))])
  ∧ list_to_map (M := gmap string json)
      [("candidate_ids", JArr ((λ z, JNum (PyInt z)) <$> [2; 1]))]
      !! "candidate_ids"
    = Some (JArr ((λ z, JNum (PyInt z)) <$> [2; 1]))
  ∧ rerank_candidates_with_gemini (H := sample_reply_lib)
      (api_reply reply_ranked) "best anime" [] = Ok [2; 1].
Proof.
  assert (loads (ReplyLib := sample_reply_lib) reply_ranked
          = Some (JObj [("candidate_ids",
                         JArr ((λ z, JNum (PyInt z)) <$> [2; 1]))])) as Hl
    by (vm_compute; reflexivity).
  assert (list_to_map (M := gmap string json)
            [("candidate_ids", JArr ((λ z, JNum (PyInt z)) <$> [2; 1]))]
            !! "candidate_ids"
          = Some (JArr ((λ z, JNum (PyInt z)) <$> [2; 1]))) as Hk
    by (vm_compute; reflexivity).
  split; [reflexivity|]. split; [exact Hl|]. split; [exact Hk|].
  exact (reranker_returns_reply_ids (H := sample_reply_lib)
           (api_reply reply_ranked) "best anime" [] reply_ranked _ [2; 1]
           eq_refl Hl Hk).
Defined.

Lemma decoding_error_comes_from_catalog_witness :
  recommend_top_media (H := sample_lib) bad_stores 10 None
    = Raise JSONDecodeError
  ∧ (∃ p, get_user_preferences (H := sample_lib) (personal bad_stores)
            = Ok p)
  ∧ Exists (malformed (H := sample_lib)) (global bad_stores).
Proof.
  assert (recommend_top_media (H := sample_lib) bad_stores 10 None
            = Raise JSONDecodeError) as Hr by (vm_compute; reflexivity).
  split; [exact Hr|].
  exact (decoding_error_comes_from_catalog (H := sample_lib)
           bad_stores 10 None Hr).
Defined.
